(** * NatalCare — offline triage engine (LogicCore.ts)

    A shallow embedding of the risk-assessment engine and the properties of
    its scoring rules and tier mapping.

    Two revisions of LogicCore.ts are embedded:
    - [LogicCore]   : the triage engine with the offline-model hook
                      (deterministic rules, AI inference, final assessment);
    - [LogicCoreV2] : "Logic Core v2", whose triage module has the
                      deterministic rules and the final assessment only;
    - [Registration] : the registration module of Logic Core v2
                      (estimated delivery date, offline patient record),
                      over [JsDate], the Date of the JavaScript runtime.

    Modelling conventions.
    - A TypeScript [number] holding a vital sign (mmHg, bpm, dipstick grade)
      is an integer [Z], negative values included; the model probability is
      a rational [Q].
    - [reasons.push(x)] is [reasons ++ [x]].
    - A template literal [`...${n}...`] is string concatenation around
      [numberToString n], the decimal rendering of the integer [n].
    - An [async] function is a computation in the monad [Async]: it threads
      the console output and ends either resolved with a value or rejected
      with an error; [await] is bind and [try/catch] is [tryCatch]. *)

From Stdlib Require Import ZArith QArith String Ascii List Bool Lia.
From Stdlib Require Import DecimalString.
Import ListNotations.

Local Open Scope string_scope.
Local Open Scope list_scope.
Local Open Scope Z_scope.

(** ** JavaScript runtime pieces used by the engine *)

(** [String(n)] for an integer-valued number: plain decimal digits with a
    leading minus sign for negatives (JavaScript prints integers this way
    below 10^21 in magnitude). *)
Definition numberToString (n : Z) : string :=
  NilZero.string_of_int (Z.to_int n).

(** [hay.includes(needle)]. *)
Fixpoint includes (needle hay : string) : bool :=
  String.prefix needle hay ||
  match hay with
  | EmptyString => false
  | String _ rest => includes needle rest
  end.

(** [a > b] on probabilities. *)
Definition Qgtb (a b : Q) : bool := negb (Qle_bool a b).

(** A thrown JavaScript [Error]. *)
Record JsError : Type := mkError { errName : string; errMessage : string }.

(** Lines written by [console.log], oldest first. *)
Definition Console : Type := list string.

(** How a promise settles. *)
Inductive Outcome (A : Type) : Type :=
| Resolved (a : A)
| Rejected (e : JsError).
Arguments Resolved {A} a.
Arguments Rejected {A} e.

(** An [async] computation: console in, settled outcome and console out. *)
Definition Async (A : Type) : Type := Console -> Outcome A * Console.

Definition ret {A} (a : A) : Async A := fun c => (Resolved a, c).

Definition throw {A} (e : JsError) : Async A := fun c => (Rejected e, c).

Definition bind {A B} (m : Async A) (k : A -> Async B) : Async B :=
  fun c =>
    match m c with
    | (Resolved a, c') => k a c'
    | (Rejected e, c') => (Rejected e, c')
    end.

Definition tryCatch {A} (body : Async A) (handler : JsError -> Async A) : Async A :=
  fun c =>
    match body c with
    | (Resolved a, c') => (Resolved a, c')
    | (Rejected e, c') => handler e c'
    end.

Definition console_log (line : string) : Async unit :=
  fun c => (Resolved tt, c ++ [line]).

Declare Scope async_scope.
Delimit Scope async_scope with async.
Notation "x <- m ;; k" := (bind m (fun x => k))
  (at level 61, m at next level, right associativity) : async_scope.
Notation "m ;; k" := (bind m (fun _ => k))
  (at level 61, right associativity) : async_scope.

(** The settled value of a computation, the console forgotten. *)
Definition outcome {A} (m : Async A) (c : Console) : Outcome A := fst (m c).

(** ** Data models shared by both revisions *)

Inductive RiskLevel : Type := LOW | MEDIUM | HIGH | CRITICAL.

Record AssessmentResult : Type := mkAssessment {
  riskLevel : RiskLevel;
  uiColor : string;
  action : string;
  reasoning : list string
}.

(** The two local variables of [assessPatientRisk]. *)
Record Tally : Type := mkTally {
  riskScore : Z;
  reasons : list string
}.

(** [const THRESHOLDS] (identical in both revisions). *)
Module THRESHOLDS.
Definition BP_CRITICAL_SYS : Z := 160.
Definition BP_CRITICAL_DIA : Z := 110.
Definition BP_HIGH_SYS : Z := 140.
Definition BP_HIGH_DIA : Z := 90.
Definition FHR_LOW : Z := 110.
Definition FHR_HIGH : Z := 160.
End THRESHOLDS.

(** ** LogicCore.ts — triage engine with the offline-model hook *)

Module LogicCore.

Record PatientVitals : Type := mkVitals {
  systolicBP : Z;
  diastolicBP : Z;
  proteinuria : Z;
  fetalHeartRate : Z;
  gestationalAge : Z;
  symptoms : list string
}.

Definition SEVERE_HYPERTENSION : string :=
  "Severe Hypertension detected (Immediate Referral needed)".
Definition HYPERTENSION : string := "Hypertension detected".
Definition PREECLAMPSIA : string :=
  "Potential Preeclampsia: High BP combined with Proteinuria".
Definition AI_MATCH : string :=
  "AI Analysis: Pattern matches historical high-risk cases".
Definition AI_UNAVAILABLE : string :=
  "AI Model unavailable offline, relying on heuristic rules.".
Definition NORMAL : string := "Vitals within normal limits".

Definition fetalReason (vitals : PatientVitals) : string :=
  ("Abnormal Fetal Heart Rate detected: "
     ++ numberToString (fetalHeartRate vitals) ++ " bpm")%string.

(** Check Hypertension *)
Definition checkHypertension (vitals : PatientVitals) (t : Tally) : Tally :=
  if (systolicBP vitals >=? THRESHOLDS.BP_CRITICAL_SYS)
     || (diastolicBP vitals >=? THRESHOLDS.BP_CRITICAL_DIA)
  then mkTally (riskScore t + 50) (reasons t ++ [SEVERE_HYPERTENSION])
  else if (systolicBP vitals >=? THRESHOLDS.BP_HIGH_SYS)
          || (diastolicBP vitals >=? THRESHOLDS.BP_HIGH_DIA)
  then mkTally (riskScore t + 20) (reasons t ++ [HYPERTENSION])
  else t.

(** Check Preeclampsia (Hypertension + Protein) *)
Definition checkPreeclampsia (vitals : PatientVitals) (t : Tally) : Tally :=
  if (riskScore t >=? 20) && (proteinuria vitals >? 1)
  then mkTally (riskScore t + 40) (reasons t ++ [PREECLAMPSIA])
  else t.

(** Check Fetal Distress *)
Definition checkFetalDistress (vitals : PatientVitals) (t : Tally) : Tally :=
  if (fetalHeartRate vitals <? THRESHOLDS.FHR_LOW)
     || (fetalHeartRate vitals >? THRESHOLDS.FHR_HIGH)
  then mkTally (riskScore t + 30) (reasons t ++ [fetalReason vitals])
  else t.

(** STEP A: deterministic rules, from [riskScore = 0], [reasons = []]. *)
Definition deterministicRules (vitals : PatientVitals) : Tally :=
  checkFetalDistress vitals
    (checkPreeclampsia vitals
      (checkHypertension vitals (mkTally 0 []))).

(** HELPER: mock of the TensorFlow Lite call. *)
Definition runOfflineModel (data : PatientVitals) : Async Q :=
  ret (1 # 10)%Q.

Section Engine.

(** The model the engine awaits; [runOfflineModel] in the shipped file. *)
Variable model : PatientVitals -> Async Q.

(** STEP B: AI inference, inside [try { ... } catch (error) { ... }]. *)
Definition aiInference (vitals : PatientVitals) (t : Tally) : Async Tally :=
  tryCatch
    (aiPrediction <- model vitals ;;
     if Qgtb aiPrediction (3 # 4)%Q
     then ret (mkTally (riskScore t + 15) (reasons t ++ [AI_MATCH]))
     else ret t)%async
    (fun error => (console_log AI_UNAVAILABLE ;; ret t)%async).

(** STEP C: generate the final assessment. *)
Definition generateFinalAssessment (t : Tally) : AssessmentResult :=
  if riskScore t >=? 50 then
    mkAssessment CRITICAL "#FF0000"
      "EMERGENCY: INITIATE TRANSPORT TO GENERAL HOSPITAL NOW."
      (reasons t)
  else if riskScore t >=? 20 then
    mkAssessment HIGH "#FFA500"
      "REFERRAL: Monitor closely and prepare for transport."
      (reasons t)
  else if riskScore t >=? 10 then
    mkAssessment MEDIUM "#FFFF00"
      "WARNING: Re-assess vitals in 4 hours."
      (reasons t)
  else
    mkAssessment LOW "#008000"
      "STABLE: Continue routine care."
      [NORMAL].

(** The tally on which the final assessment is generated. *)
Definition totalTally (vitals : PatientVitals) : Async Tally :=
  aiInference vitals (deterministicRules vitals).

Definition assessPatientRiskWith (vitals : PatientVitals)
  : Async AssessmentResult :=
  (t <- totalTally vitals ;;
   ret (generateFinalAssessment t))%async.

End Engine.

(** MAIN LOGIC FUNCTION, as shipped: the model is [runOfflineModel]. *)
Definition assessPatientRisk (vitals : PatientVitals) : Async AssessmentResult :=
  assessPatientRiskWith runOfflineModel vitals.

(** The assessment by rules 1-3 alone: no model is consulted. *)
Definition assessByRulesOnly (vitals : PatientVitals) : AssessmentResult :=
  generateFinalAssessment (deterministicRules vitals).

End LogicCore.

(** ** LogicCore.ts, "Logic Core v2" — triage module without the model hook *)

Module LogicCoreV2.

Record PatientVitals : Type := mkVitals {
  patientId : string;
  systolicBP : Z;
  diastolicBP : Z;
  proteinuria : Z;
  fetalHeartRate : Z;
  symptoms : list string
}.

Definition SEVERE_HYPERTENSION : string := "Severe Hypertension detected".
Definition HYPERTENSION : string := "Hypertension detected".
Definition PREECLAMPSIA : string := "Potential Preeclampsia (BP + Protein)".
Definition NORMAL : string := "Normal limits".

Definition fetalReason (vitals : PatientVitals) : string :=
  ("Abnormal Fetal Heart Rate: "
     ++ numberToString (fetalHeartRate vitals))%string.

(** Logic: Check Hypertension *)
Definition checkHypertension (vitals : PatientVitals) (t : Tally) : Tally :=
  if (systolicBP vitals >=? THRESHOLDS.BP_CRITICAL_SYS)
     || (diastolicBP vitals >=? THRESHOLDS.BP_CRITICAL_DIA)
  then mkTally (riskScore t + 50) (reasons t ++ [SEVERE_HYPERTENSION])
  else if (systolicBP vitals >=? THRESHOLDS.BP_HIGH_SYS)
          || (diastolicBP vitals >=? THRESHOLDS.BP_HIGH_DIA)
  then mkTally (riskScore t + 20) (reasons t ++ [HYPERTENSION])
  else t.

(** Logic: Check Preeclampsia *)
Definition checkPreeclampsia (vitals : PatientVitals) (t : Tally) : Tally :=
  if (riskScore t >=? 20) && (proteinuria vitals >? 1)
  then mkTally (riskScore t + 40) (reasons t ++ [PREECLAMPSIA])
  else t.

(** Logic: Check Fetal Heart Rate *)
Definition checkFetalHeartRate (vitals : PatientVitals) (t : Tally) : Tally :=
  if (fetalHeartRate vitals <? THRESHOLDS.FHR_LOW)
     || (fetalHeartRate vitals >? THRESHOLDS.FHR_HIGH)
  then mkTally (riskScore t + 30) (reasons t ++ [fetalReason vitals])
  else t.

(** The tally on which the result is generated. *)
Definition totalTally (vitals : PatientVitals) : Tally :=
  checkFetalHeartRate vitals
    (checkPreeclampsia vitals
      (checkHypertension vitals (mkTally 0 []))).

(** Generate Result *)
Definition generateResult (t : Tally) : AssessmentResult :=
  if riskScore t >=? 50 then
    mkAssessment CRITICAL "#FF0000" "EMERGENCY: TRANSPORT NOW" (reasons t)
  else if riskScore t >=? 20 then
    mkAssessment HIGH "#FFA500" "REFERRAL: Monitor & Prepare" (reasons t)
  else if riskScore t >=? 10 then
    mkAssessment MEDIUM "#FFFF00" "WARNING: Re-check in 4hrs" (reasons t)
  else
    mkAssessment LOW "#008000" "STABLE" [NORMAL].

Definition assessPatientRisk (vitals : PatientVitals) : Async AssessmentResult :=
  ret (generateResult (totalTally vitals)).

End LogicCoreV2.

(** ** JavaScript [Date], as ECMAScript defines it

    A [Date] holds a time value, milliseconds since 1970-01-01T00:00Z, or
    is an Invalid Date (time value NaN).  A number that may be NaN is an
    [option Z], [None] being NaN.  The calendar functions are those of the
    ECMAScript specification (Day, DayFromYear, MonthFromTime, MakeDay,
    ...); [YearFromTime] and [MakeDay], given there by a characterisation,
    are computed here and shown below to meet it.  The local zone has a
    fixed offset [LocalTZA] from UTC. *)

Module JsDate.

Inductive Date : Type :=
| TimeValue (t : Z)
| InvalidDate.

Definition msPerDay : Z := 86400000.

Definition Day (t : Z) : Z := t / msPerDay.

Definition TimeWithinDay (t : Z) : Z := t mod msPerDay.

Definition DaysInYear (y : Z) : Z :=
  if negb (y mod 4 =? 0) then 365
  else if negb (y mod 100 =? 0) then 366
  else if negb (y mod 400 =? 0) then 365
  else 366.

Definition DayFromYear (y : Z) : Z :=
  365 * (y - 1970) + (y - 1969) / 4 - (y - 1901) / 100 + (y - 1601) / 400.

(** The year a day number falls in: the largest [y] with
    [DayFromYear y <= d], found from an estimate that is off by at most
    one. *)
Definition yearOfDay (d : Z) : Z :=
  let y := 1970 + (400 * d) / 146097 in
  if d <? DayFromYear y then y - 1
  else if DayFromYear (y + 1) <=? d then y + 1
  else y.

Definition YearFromTime (t : Z) : Z := yearOfDay (Day t).

Definition InLeapYear (t : Z) : Z := DaysInYear (YearFromTime t) - 365.

Definition DayWithinYear (t : Z) : Z := Day t - DayFromYear (YearFromTime t).

(** Months are numbered from 0 (January) to 11 (December). *)
Definition MonthFromTime (t : Z) : Z :=
  let d := DayWithinYear t in
  let leap := InLeapYear t in
  if d <? 31 then 0
  else if d <? 59 + leap then 1
  else if d <? 90 + leap then 2
  else if d <? 120 + leap then 3
  else if d <? 151 + leap then 4
  else if d <? 181 + leap then 5
  else if d <? 212 + leap then 6
  else if d <? 243 + leap then 7
  else if d <? 273 + leap then 8
  else if d <? 304 + leap then 9
  else if d <? 334 + leap then 10
  else 11.

Definition DateFromTime (t : Z) : Z :=
  let d := DayWithinYear t in
  let leap := InLeapYear t in
  match MonthFromTime t with
  | 0 => d + 1
  | 1 => d - 30
  | 2 => d - 58 - leap
  | 3 => d - 89 - leap
  | 4 => d - 119 - leap
  | 5 => d - 150 - leap
  | 6 => d - 180 - leap
  | 7 => d - 211 - leap
  | 8 => d - 242 - leap
  | 9 => d - 272 - leap
  | 10 => d - 303 - leap
  | _ => d - 333 - leap
  end.

(** Days of the year before the first of month [mn] (0 to 11). *)
Definition daysBeforeMonth (mn leap : Z) : Z :=
  match mn with
  | 0 => 0
  | 1 => 31
  | 2 => 59 + leap
  | 3 => 90 + leap
  | 4 => 120 + leap
  | 5 => 151 + leap
  | 6 => 181 + leap
  | 7 => 212 + leap
  | 8 => 243 + leap
  | 9 => 273 + leap
  | 10 => 304 + leap
  | _ => 334 + leap
  end.

(** Days in month [mn] (0 to 11). *)
Definition DaysInMonth (mn leap : Z) : Z :=
  match mn with
  | 1 => 28 + leap
  | 3 | 5 | 8 | 10 => 30
  | _ => 31
  end.

(** [MakeDay]: the month may lie outside 0..11 and the date outside the
    month; both carry over. *)
Definition MakeDay (year month date : Z) : Z :=
  let ym := year + month / 12 in
  let mn := month mod 12 in
  DayFromYear ym + daysBeforeMonth mn (DaysInYear ym - 365) + date - 1.

Definition MakeDate (day time : Z) : Z := day * msPerDay + time.

Definition TimeClip (time : Z) : Date :=
  if Z.abs time >? 8640000000000000 then InvalidDate else TimeValue time.

(** [x + k] where [x] may be NaN. *)
Definition plus (x : option Z) (k : Z) : option Z :=
  match x with
  | Some n => Some (n + k)
  | None => None
  end.

Section LocalZone.

Variable LocalTZA : Z.

Definition LocalTime (t : Z) : Z := t + LocalTZA.

Definition UTC (t : Z) : Z := t - LocalTZA.

(** [d.getDate()] *)
Definition getDate (d : Date) : option Z :=
  match d with
  | TimeValue tv => Some (DateFromTime (LocalTime tv))
  | InvalidDate => None
  end.

(** [d.getMonth()] *)
Definition getMonth (d : Date) : option Z :=
  match d with
  | TimeValue tv => Some (MonthFromTime (LocalTime tv))
  | InvalidDate => None
  end.

(** [d.setDate(date)]: the date [d] holds afterwards. *)
Definition setDate (d : Date) (date : option Z) : Date :=
  match d, date with
  | TimeValue tv, Some dt =>
      let t := LocalTime tv in
      TimeClip (UTC (MakeDate (MakeDay (YearFromTime t) (MonthFromTime t) dt)
                              (TimeWithinDay t)))
  | _, _ => InvalidDate
  end.

(** [d.setMonth(month)]: the date [d] holds afterwards. *)
Definition setMonth (d : Date) (month : option Z) : Date :=
  match d, month with
  | TimeValue tv, Some m =>
      let t := LocalTime tv in
      TimeClip (UTC (MakeDate (MakeDay (YearFromTime t) m (DateFromTime t))
                              (TimeWithinDay t)))
  | _, _ => InvalidDate
  end.

End LocalZone.

End JsDate.

(** ** Logic Core v2 — registration module *)

Module Registration.
Import JsDate.

Inductive SyncStatus : Type := PENDING | SYNCED.

Record PatientProfile : Type := mkProfile {
  id : string;
  fullName : string;
  village : string;
  age : Z;
  lastMenstrualPeriod : Date;
  estimatedDeliveryDate : Date;
  registeredAt : Date;
  syncStatus : SyncStatus
}.

Definition MISSING_FIELDS : JsError :=
  mkError "Error" "Missing required fields".

Section Runtime.

(** The offset of the device's zone. *)
Variable LocalTZA : Z.

(** [uuidv4()] of the uuid package; it throws where no random source is
    installed. *)
Variable uuidv4 : Async string.

(** [new Date(s)] on a string. *)
Variable parseDate : string -> Date.

(** What [new Date()] reads from the clock during the call. *)
Variable now : Date.

(** Estimated delivery date by Naegele's rule, on a copy of [lmp]. *)
Definition calculateEDD (lmp : Date) : Date :=
  let edd := lmp in
  let edd := setDate LocalTZA edd (plus (getDate LocalTZA edd) 7) in
  let edd := setMonth LocalTZA edd (plus (getMonth LocalTZA edd) 9) in
  edd.

(** Creates a patient record offline. *)
Definition registerPatient (name village : string) (age : Z) (lmp : string)
  : Async PatientProfile :=
  if String.eqb name "" || String.eqb village ""
  then throw MISSING_FIELDS
  else
    (offlineId <- uuidv4 ;;
     let lmpDate := parseDate lmp in
     let calculatedEDD := calculateEDD lmpDate in
     let newProfile :=
       mkProfile offlineId name village age lmpDate calculatedEDD now PENDING in
     console_log ("User " ++ name ++ " registered offline with ID: "
                    ++ offlineId)%string ;;
     ret newProfile)%async.

End Runtime.

End Registration.

(** ** Vocabulary of the properties *)

(** The colour shown for a risk level. *)
Definition colorOf (l : RiskLevel) : string :=
  match l with
  | CRITICAL => "#FF0000"
  | HIGH => "#FFA500"
  | MEDIUM => "#FFFF00"
  | LOW => "#008000"
  end.

(** Vitals of the two revisions carrying the same four readings. *)
Definition sameReadings
  (v : LogicCore.PatientVitals) (w : LogicCoreV2.PatientVitals) : Prop :=
  LogicCore.systolicBP v = LogicCoreV2.systolicBP w /\
  LogicCore.diastolicBP v = LogicCoreV2.diastolicBP w /\
  LogicCore.proteinuria v = LogicCoreV2.proteinuria w /\
  LogicCore.fetalHeartRate v = LogicCoreV2.fetalHeartRate w.

(** The four readings the rules look at. *)
Definition readings (v : LogicCore.PatientVitals) : Z * Z * Z * Z :=
  (LogicCore.systolicBP v, LogicCore.diastolicBP v,
   LogicCore.proteinuria v, LogicCore.fetalHeartRate v).

Definition readingsV2 (w : LogicCoreV2.PatientVitals) : Z * Z * Z * Z :=
  (LogicCoreV2.systolicBP w, LogicCoreV2.diastolicBP w,
   LogicCoreV2.proteinuria w, LogicCoreV2.fetalHeartRate w).

(** The risk levels in order of severity. *)
Definition severity (l : RiskLevel) : Z :=
  match l with
  | LOW => 0
  | MEDIUM => 1
  | HIGH => 2
  | CRITICAL => 3
  end.

(** Two calls of the same computation, one after the other. *)
Definition twice {A} (m : Async A) : Async (A * A) :=
  (r1 <- m ;; r2 <- m ;; ret (r1, r2))%async.

(** The ranges the data model gives the required vital fields: blood
    pressures and fetal heart rate are non-negative and proteinuria is a
    dipstick grade from 0 to 4.  The engine itself never consults them. *)
Definition inRange (systolic diastolic protein fhr : Z) : bool :=
  (0 <=? systolic) && (0 <=? diastolic)
  && (0 <=? protein) && (protein <=? 4) && (0 <=? fhr).

(** A validation error naming a field of the vitals. *)
Definition isValidationErrorFor (field : string) (e : JsError) : Prop :=
  errName e = "ValidationError" /\ includes field (errMessage e) = true.

Definition requiredFields : list string :=
  ["systolicBP"; "diastolicBP"; "proteinuria"; "fetalHeartRate"].

(** * Properties *)

(** ** The [Async] monad *)

Lemma bind_ret_l {A B} (a : A) (k : A -> Async B) (c : Console) :
  bind (ret a) k c = k a c.
Proof. reflexivity. Qed.

Lemma bind_resolved {A B} (m : Async A) (k : A -> Async B) c a c' :
  m c = (Resolved a, c') -> bind m k c = k a c'.
Proof. intros H. unfold bind. now rewrite H. Qed.

Lemma bind_rejected {A B} (m : Async A) (k : A -> Async B) c e c' :
  m c = (Rejected e, c') -> bind m k c = (Rejected e, c').
Proof. intros H. unfold bind. now rewrite H. Qed.

Lemma tryCatch_resolved {A} (m : Async A) h c a c' :
  m c = (Resolved a, c') -> tryCatch m h c = (Resolved a, c').
Proof. intros H. unfold tryCatch. now rewrite H. Qed.

Lemma tryCatch_rejected {A} (m : Async A) h c e c' :
  m c = (Rejected e, c') -> tryCatch m h c = h e c'.
Proof. intros H. unfold tryCatch. now rewrite H. Qed.

(** A computation settles one way or the other. *)
Lemma settles {A} (m : Async A) (c : Console) :
  (exists a c', m c = (Resolved a, c')) \/ (exists e c', m c = (Rejected e, c')).
Proof.
  destruct (m c) as [[a | e] c'] eqn:E; [left | right]; eauto.
Qed.

(** ** Strings *)

Lemma prefix_append (s t : string) : String.prefix s (s ++ t)%string = true.
Proof.
  induction s as [| a s IH]; simpl.
  - now destruct t.
  - destruct (Ascii.ascii_dec a a) as [_ | N]; [exact IH | now elim N].
Qed.

Lemma includes_prefix (s hay : string) :
  String.prefix s hay = true -> includes s hay = true.
Proof. intros H. destruct hay; cbn [includes]; rewrite H; reflexivity. Qed.

Lemma includes_append (pre s post : string) :
  includes s (pre ++ s ++ post)%string = true.
Proof.
  induction pre as [| a pre IH].
  - apply includes_prefix. exact (prefix_append s post).
  - change ((String a pre ++ s ++ post)%string)
      with (String a (pre ++ s ++ post)%string).
    cbn [includes]. rewrite IH. apply orb_true_r.
Qed.

Lemma append_empty_r (s : string) : (s ++ "")%string = s.
Proof. induction s as [| a s IH]; simpl; [reflexivity | now rewrite IH]. Qed.

Lemma includes_append_l (pre s : string) :
  includes s (pre ++ s)%string = true.
Proof.
  assert (H := includes_append pre s "").
  now rewrite append_empty_r in H.
Qed.

(** ** Comparisons *)

Ltac thresholds :=
  unfold THRESHOLDS.BP_CRITICAL_SYS, THRESHOLDS.BP_CRITICAL_DIA,
         THRESHOLDS.BP_HIGH_SYS, THRESHOLDS.BP_HIGH_DIA,
         THRESHOLDS.FHR_LOW, THRESHOLDS.FHR_HIGH in *.

(** Case analysis on every integer comparison left in the goal. *)
Ltac split_tests :=
  repeat match goal with
  | |- context [Z.geb ?a ?b] => rewrite (Z.geb_leb a b)
  | |- context [Z.gtb ?a ?b] => rewrite (Z.gtb_ltb a b)
  end;
  repeat match goal with
  | |- context [Z.leb ?a ?b] => destruct (Z.leb_spec a b)
  | |- context [Z.ltb ?a ?b] => destruct (Z.ltb_spec a b)
  end.

(** ** LogicCore: the engine with the offline-model hook *)

Module LogicCoreFacts.
Import LogicCore.

(** The model answered: the AI rule fires exactly on a prediction above 0.75. *)
Lemma aiInference_resolved model v t c q c' :
  model v c = (Resolved q, c') ->
  aiInference model v t c =
    (Resolved (if Qgtb q (3 # 4)%Q
               then mkTally (riskScore t + 15) (reasons t ++ [AI_MATCH])
               else t), c').
Proof.
  intros H. unfold aiInference.
  apply tryCatch_resolved.
  rewrite (bind_resolved _ _ _ _ _ H).
  now destruct (Qgtb q (3 # 4)%Q).
Qed.

(** The model failed: the tally is kept and one line is logged. *)
Lemma aiInference_rejected model v t c e c' :
  model v c = (Rejected e, c') ->
  aiInference model v t c = (Resolved t, c' ++ [AI_UNAVAILABLE]).
Proof.
  intros H. unfold aiInference.
  rewrite (tryCatch_rejected _ _ c e c').
  - reflexivity.
  - now apply bind_rejected.
Qed.

(** Whatever the model does, STEP B resolves, with the tally either kept or
    raised by 15. *)
Lemma aiInference_cases model v t c :
  exists c',
    aiInference model v t c = (Resolved t, c') \/
    aiInference model v t c =
      (Resolved (mkTally (riskScore t + 15) (reasons t ++ [AI_MATCH])), c').
Proof.
  destruct (settles (model v) c) as [(q & c' & H) | (e & c' & H)].
  - exists c'. rewrite (aiInference_resolved _ _ _ _ _ _ H).
    destruct (Qgtb q (3 # 4)%Q); auto.
  - exists (c' ++ [AI_UNAVAILABLE]). left. exact (aiInference_rejected _ _ _ _ _ _ H).
Qed.

(** The engine resolves with the final assessment of the total tally. *)
Lemma assessPatientRiskWith_total model v c t c' :
  totalTally model v c = (Resolved t, c') ->
  assessPatientRiskWith model v c = (Resolved (generateFinalAssessment t), c').
Proof.
  intros H. unfold assessPatientRiskWith.
  now rewrite (bind_resolved _ _ _ _ _ H).
Qed.

Lemma totalTally_cases model v c :
  exists t c',
    totalTally model v c = (Resolved t, c') /\
    (t = deterministicRules v \/
     t = mkTally (riskScore (deterministicRules v) + 15)
                 (reasons (deterministicRules v) ++ [AI_MATCH])).
Proof.
  unfold totalTally.
  destruct (aiInference_cases model v (deterministicRules v) c) as [c' [H | H]];
    rewrite H; eauto.
Qed.

(** The shipped placeholder never raises the score. *)
Lemma totalTally_shipped v c :
  totalTally runOfflineModel v c = (Resolved (deterministicRules v), c).
Proof. reflexivity. Qed.

Lemma assessPatientRisk_shipped v c :
  assessPatientRisk v c = (Resolved (assessByRulesOnly v), c).
Proof. reflexivity. Qed.

(** The tallies STEP A can produce, by the branches taken. *)
Lemma deterministicRules_score v :
  In (riskScore (deterministicRules v)) [0; 20; 30; 50; 60; 80; 90; 120].
Proof.
  unfold deterministicRules, checkFetalDistress, checkPreeclampsia,
    checkHypertension.
  thresholds. split_tests; simpl in *; try lia; tauto.
Qed.

(** The tier of the final assessment, by thresholds tried highest first. *)
Lemma generateFinalAssessment_level t :
  riskLevel (generateFinalAssessment t) =
    if riskScore t >=? 50 then CRITICAL
    else if riskScore t >=? 20 then HIGH
    else if riskScore t >=? 10 then MEDIUM
    else LOW.
Proof.
  unfold generateFinalAssessment.
  destruct (riskScore t >=? 50); [reflexivity |].
  destruct (riskScore t >=? 20); [reflexivity |].
  destruct (riskScore t >=? 10); reflexivity.
Qed.

Lemma generateFinalAssessment_color t :
  uiColor (generateFinalAssessment t) =
    colorOf (riskLevel (generateFinalAssessment t)).
Proof.
  unfold generateFinalAssessment.
  destruct (riskScore t >=? 50); [reflexivity |].
  destruct (riskScore t >=? 20); [reflexivity |].
  destruct (riskScore t >=? 10); reflexivity.
Qed.

(** Scores only grow along STEP A. *)
Lemma checkHypertension_critical v t :
  systolicBP v >= 160 \/ diastolicBP v >= 110 ->
  checkHypertension v t =
    mkTally (riskScore t + 50) (reasons t ++ [SEVERE_HYPERTENSION]).
Proof.
  intros H. unfold checkHypertension. thresholds.
  split_tests; simpl; try reflexivity; lia.
Qed.

Lemma checkPreeclampsia_grows v t :
  riskScore t <= riskScore (checkPreeclampsia v t).
Proof.
  unfold checkPreeclampsia.
  destruct ((riskScore t >=? 20) && (proteinuria v >? 1)); simpl; lia.
Qed.

Lemma checkFetalDistress_grows v t :
  riskScore t <= riskScore (checkFetalDistress v t).
Proof.
  unfold checkFetalDistress.
  destruct ((fetalHeartRate v <? THRESHOLDS.FHR_LOW)
            || (fetalHeartRate v >? THRESHOLDS.FHR_HIGH)); simpl; lia.
Qed.

Lemma deterministicRules_critical v :
  systolicBP v >= 160 \/ diastolicBP v >= 110 ->
  50 <= riskScore (deterministicRules v).
Proof.
  intros H. unfold deterministicRules.
  rewrite (checkHypertension_critical v _ H).
  etransitivity; [| apply checkFetalDistress_grows].
  etransitivity; [| apply checkPreeclampsia_grows].
  simpl. lia.
Qed.

End LogicCoreFacts.

(** ** LogicCoreV2: the triage module without the model hook *)

Module LogicCoreV2Facts.
Import LogicCoreV2.

Lemma assessPatientRisk_run w c :
  assessPatientRisk w c = (Resolved (generateResult (totalTally w)), c).
Proof. reflexivity. Qed.

Lemma generateResult_level t :
  riskLevel (generateResult t) =
    if riskScore t >=? 50 then CRITICAL
    else if riskScore t >=? 20 then HIGH
    else if riskScore t >=? 10 then MEDIUM
    else LOW.
Proof.
  unfold generateResult.
  destruct (riskScore t >=? 50); [reflexivity |].
  destruct (riskScore t >=? 20); [reflexivity |].
  destruct (riskScore t >=? 10); reflexivity.
Qed.

Lemma generateResult_color t :
  uiColor (generateResult t) = colorOf (riskLevel (generateResult t)).
Proof.
  unfold generateResult.
  destruct (riskScore t >=? 50); [reflexivity |].
  destruct (riskScore t >=? 20); [reflexivity |].
  destruct (riskScore t >=? 10); reflexivity.
Qed.

Lemma totalTally_score w :
  In (riskScore (totalTally w)) [0; 20; 30; 50; 60; 80; 90; 120].
Proof.
  unfold totalTally, checkFetalHeartRate, checkPreeclampsia, checkHypertension.
  thresholds. split_tests; simpl in *; try lia; tauto.
Qed.

End LogicCoreV2Facts.

(** The two revisions score the same readings alike. *)
Lemma revisions_agree_on_score v w :
  sameReadings v w ->
  riskScore (LogicCore.deterministicRules v) =
  riskScore (LogicCoreV2.totalTally w).
Proof.
  intros (Hs & Hd & Hp & Hf).
  unfold LogicCore.deterministicRules, LogicCoreV2.totalTally,
    LogicCore.checkFetalDistress, LogicCoreV2.checkFetalHeartRate,
    LogicCore.checkPreeclampsia, LogicCoreV2.checkPreeclampsia,
    LogicCore.checkHypertension, LogicCoreV2.checkHypertension.
  rewrite Hs, Hd, Hp, Hf.
  thresholds. split_tests; simpl in *; lia.
Qed.

(** * The claims *)

(** C1.  Severe hypertension dominates: when systolicBP >= 160 or
    diastolicBP >= 110 the engine resolves with riskLevel CRITICAL, whatever
    the other fields are and whatever the model does (any prediction, or a
    failure).  It holds for the engine with any model, for the shipped
    engine, and for the v2 engine on the same readings. *)
Theorem severe_hypertension_is_critical
  (model : LogicCore.PatientVitals -> Async Q)
  (v : LogicCore.PatientVitals) (w : LogicCoreV2.PatientVitals) (c : Console) :
  sameReadings v w ->
  LogicCore.systolicBP v >= 160 \/ LogicCore.diastolicBP v >= 110 ->
  (exists r, outcome (LogicCore.assessPatientRiskWith model v) c = Resolved r
             /\ riskLevel r = CRITICAL) /\
  (exists r, outcome (LogicCore.assessPatientRisk v) c = Resolved r
             /\ riskLevel r = CRITICAL) /\
  (exists r, outcome (LogicCoreV2.assessPatientRisk w) c = Resolved r
             /\ riskLevel r = CRITICAL).
Proof.
  intros Hsame Hcrit.
  assert (Hscore := LogicCoreFacts.deterministicRules_critical v Hcrit).
  assert (Hany : forall m,
    exists r, outcome (LogicCore.assessPatientRiskWith m v) c = Resolved r
              /\ riskLevel r = CRITICAL).
  { intros m.
    destruct (LogicCoreFacts.totalTally_cases m v c) as (t & c' & Ht & Hcase).
    exists (LogicCore.generateFinalAssessment t). split.
    - unfold outcome.
      now rewrite (LogicCoreFacts.assessPatientRiskWith_total _ _ _ _ _ Ht).
    - rewrite LogicCoreFacts.generateFinalAssessment_level.
      assert (E : (riskScore t >=? 50) = true).
      { rewrite Z.geb_leb. apply Z.leb_le.
        destruct Hcase as [-> | ->]; simpl; lia. }
      now rewrite E. }
  split; [apply Hany |]. split; [apply Hany |].
  exists (LogicCoreV2.generateResult (LogicCoreV2.totalTally w)). split.
  - reflexivity.
  - rewrite LogicCoreV2Facts.generateResult_level.
    rewrite <- (revisions_agree_on_score v w Hsame).
    assert (E : (riskScore (LogicCore.deterministicRules v) >=? 50) = true)
      by (rewrite Z.geb_leb; now apply Z.leb_le).
    now rewrite E.
Qed.

Lemma severe_hypertension_is_critical_witness :
  let v := LogicCore.mkVitals 165 85 0 140 30 [] in
  let w := LogicCoreV2.mkVitals "p-1" 165 85 0 140 [] in
  (LogicCore.systolicBP v >= 160 \/ LogicCore.diastolicBP v >= 110) /\
  (exists r, outcome (LogicCore.assessPatientRiskWith
                        (fun _ => throw (mkError "Error" "model not loaded")) v)
               [] = Resolved r
             /\ riskLevel r = CRITICAL) /\
  (exists r, outcome (LogicCore.assessPatientRisk v) [] = Resolved r
             /\ riskLevel r = CRITICAL) /\
  (exists r, outcome (LogicCoreV2.assessPatientRisk w) [] = Resolved r
             /\ riskLevel r = CRITICAL).
Proof.
  intros v w.
  assert (Hcrit : LogicCore.systolicBP v >= 160 \/ LogicCore.diastolicBP v >= 110)
    by (left; simpl; lia).
  split; [exact Hcrit |].
  apply (severe_hypertension_is_critical _ v w []).
  - repeat split.
  - exact Hcrit.
Defined.

(** C2, as the specification states it, fails on the code.  Vitals with a
    negative systolic pressure and a proteinuria grade of 9 are outside the
    data model's ranges, yet both revisions resolve with an assessment (LOW,
    "within normal limits") and nothing is rejected. *)
Lemma out_of_range_vitals_are_assessed :
  let v := LogicCore.mkVitals (-5) 80 9 140 30 [] in
  let w := LogicCoreV2.mkVitals "p-1" (-5) 80 9 140 [] in
  inRange (LogicCore.systolicBP v) (LogicCore.diastolicBP v)
          (LogicCore.proteinuria v) (LogicCore.fetalHeartRate v) = false /\
  outcome (LogicCore.assessPatientRisk v) [] =
    Resolved (mkAssessment LOW "#008000" "STABLE: Continue routine care."
                ["Vitals within normal limits"]) /\
  outcome (LogicCoreV2.assessPatientRisk w) [] =
    Resolved (mkAssessment LOW "#008000" "STABLE" ["Normal limits"]) /\
  ~ (exists field e,
       In field requiredFields /\
       outcome (LogicCore.assessPatientRisk v) [] = Rejected e /\
       isValidationErrorFor field e).
Proof.
  intros v w. repeat split.
  intros (field & e & _ & H & _). discriminate H.
Qed.

(** C2, amended.  The engine validates nothing: for every vitals value,
    in range or not, and whatever the model does, it resolves with the final
    assessment of the tally its scoring rules produce, and never rejects. *)
Theorem assessPatientRisk_never_rejects
  (model : LogicCore.PatientVitals -> Async Q)
  (v : LogicCore.PatientVitals) (w : LogicCoreV2.PatientVitals) (c : Console) :
  (exists t c',
     LogicCore.totalTally model v c = (Resolved t, c') /\
     LogicCore.assessPatientRiskWith model v c =
       (Resolved (LogicCore.generateFinalAssessment t), c')) /\
  LogicCore.assessPatientRisk v c =
    (Resolved (LogicCore.generateFinalAssessment (LogicCore.deterministicRules v)), c) /\
  LogicCoreV2.assessPatientRisk w c =
    (Resolved (LogicCoreV2.generateResult (LogicCoreV2.totalTally w)), c) /\
  (forall e, outcome (LogicCore.assessPatientRiskWith model v) c <> Rejected e) /\
  (forall e, outcome (LogicCoreV2.assessPatientRisk w) c <> Rejected e).
Proof.
  destruct (LogicCoreFacts.totalTally_cases model v c) as (t & c' & Ht & _).
  assert (Ha := LogicCoreFacts.assessPatientRiskWith_total _ _ _ _ _ Ht).
  split; [exists t, c'; auto |].
  split; [reflexivity |]. split; [reflexivity |]. split.
  - intros e. unfold outcome. rewrite Ha. discriminate.
  - intros e. discriminate.
Qed.

(** C3.  The preeclampsia rule adds 40 and appends its reason exactly when
    the score left by the hypertension check is >= 20 and proteinuria > 1.
    In particular, with systolicBP = 150, diastolicBP = 95 and
    proteinuria = 2 the total score is at least 60, the tier is CRITICAL and
    the reasons hold both "Hypertension detected" and the preeclampsia
    reason (for any model, and in the v2 engine). *)
Theorem preeclampsia_rule
  (u : LogicCore.PatientVitals) (u2 : LogicCoreV2.PatientVitals) (t : Tally)
  (model : LogicCore.PatientVitals -> Async Q)
  (v : LogicCore.PatientVitals) (w : LogicCoreV2.PatientVitals) (c : Console) :
  sameReadings v w ->
  LogicCore.systolicBP v = 150 ->
  LogicCore.diastolicBP v = 95 ->
  LogicCore.proteinuria v = 2 ->
  (* the rule, on any tally *)
  ((riskScore t >= 20 /\ LogicCore.proteinuria u > 1 ->
    LogicCore.checkPreeclampsia u t =
      mkTally (riskScore t + 40) (reasons t ++ [LogicCore.PREECLAMPSIA])) /\
   (~ (riskScore t >= 20 /\ LogicCore.proteinuria u > 1) ->
    LogicCore.checkPreeclampsia u t = t) /\
   (riskScore t >= 20 /\ LogicCoreV2.proteinuria u2 > 1 ->
    LogicCoreV2.checkPreeclampsia u2 t =
      mkTally (riskScore t + 40) (reasons t ++ [LogicCoreV2.PREECLAMPSIA])) /\
   (~ (riskScore t >= 20 /\ LogicCoreV2.proteinuria u2 > 1) ->
    LogicCoreV2.checkPreeclampsia u2 t = t)) /\
  (* the rule, where the engine runs it: after the hypertension check *)
  ((In LogicCore.PREECLAMPSIA (reasons (LogicCore.deterministicRules u)) <->
    riskScore (LogicCore.checkHypertension u (mkTally 0 [])) >= 20
    /\ LogicCore.proteinuria u > 1) /\
   (In LogicCoreV2.PREECLAMPSIA (reasons (LogicCoreV2.totalTally u2)) <->
    riskScore (LogicCoreV2.checkHypertension u2 (mkTally 0 [])) >= 20
    /\ LogicCoreV2.proteinuria u2 > 1)) /\
  (* the instance 150 / 95 / 2 *)
  (exists tl c',
     LogicCore.totalTally model v c = (Resolved tl, c') /\
     riskScore tl >= 60 /\
     outcome (LogicCore.assessPatientRiskWith model v) c =
       Resolved (LogicCore.generateFinalAssessment tl) /\
     riskLevel (LogicCore.generateFinalAssessment tl) = CRITICAL /\
     In LogicCore.HYPERTENSION
        (reasoning (LogicCore.generateFinalAssessment tl)) /\
     In LogicCore.PREECLAMPSIA
        (reasoning (LogicCore.generateFinalAssessment tl))) /\
  (riskScore (LogicCoreV2.totalTally w) >= 60 /\
   exists r,
     outcome (LogicCoreV2.assessPatientRisk w) c = Resolved r /\
     riskLevel r = CRITICAL /\
     In LogicCoreV2.HYPERTENSION (reasoning r) /\
     In LogicCoreV2.PREECLAMPSIA (reasoning r)).
Proof.
  intros (Hs & Hd & Hp & Hf) Hsys Hdia Hprot.
  split; [| split; [| split]].
  - unfold LogicCore.checkPreeclampsia, LogicCoreV2.checkPreeclampsia.
    repeat split; intros H; split_tests; simpl; try reflexivity; lia.
  - split.
    + unfold LogicCore.deterministicRules, LogicCore.checkFetalDistress,
        LogicCore.checkPreeclampsia, LogicCore.checkHypertension.
      thresholds.
      split_tests; simpl in *; (split; [intros Hin | intros [Hge Hpr]]);
        try lia; try tauto;
        repeat (destruct Hin as [Hin | Hin]; try discriminate Hin);
        try contradiction.
    + unfold LogicCoreV2.totalTally, LogicCoreV2.checkFetalHeartRate,
        LogicCoreV2.checkPreeclampsia, LogicCoreV2.checkHypertension.
      thresholds.
      split_tests; simpl in *; (split; [intros Hin | intros [Hge Hpr]]);
        try lia; try tauto;
        repeat (destruct Hin as [Hin | Hin]; try discriminate Hin);
        try contradiction.
  - destruct (LogicCoreFacts.totalTally_cases model v c)
      as (tl & c' & Ht & Hcase).
    exists tl, c'. split; [exact Ht |].
    assert (Hrules :
      60 <= riskScore (LogicCore.deterministicRules v) /\
      In LogicCore.HYPERTENSION (reasons (LogicCore.deterministicRules v)) /\
      In LogicCore.PREECLAMPSIA (reasons (LogicCore.deterministicRules v))).
    { unfold LogicCore.deterministicRules, LogicCore.checkFetalDistress,
        LogicCore.checkPreeclampsia, LogicCore.checkHypertension.
      rewrite Hsys, Hdia, Hprot. thresholds.
      split_tests; simpl in *; try lia; repeat split; try lia; auto. }
    destruct Hrules as (Hscore & Hin1 & Hin2).
    assert (Htl : 60 <= riskScore tl /\
                  In LogicCore.HYPERTENSION (reasons tl) /\
                  In LogicCore.PREECLAMPSIA (reasons tl)).
    { destruct Hcase as [-> | ->]; simpl; repeat split;
        try lia; auto using in_or_app. }
    destruct Htl as (Hscore' & Hin1' & Hin2').
    assert (Hgen : LogicCore.generateFinalAssessment tl =
      mkAssessment CRITICAL "#FF0000"
        "EMERGENCY: INITIATE TRANSPORT TO GENERAL HOSPITAL NOW."
        (reasons tl)).
    { unfold LogicCore.generateFinalAssessment.
      split_tests; try reflexivity; lia. }
    split; [lia |]. split.
    { unfold outcome.
      now rewrite (LogicCoreFacts.assessPatientRiskWith_total _ _ _ _ _ Ht). }
    rewrite Hgen. simpl. auto.
  - assert (Hrules :
      60 <= riskScore (LogicCoreV2.totalTally w) /\
      In LogicCoreV2.HYPERTENSION (reasons (LogicCoreV2.totalTally w)) /\
      In LogicCoreV2.PREECLAMPSIA (reasons (LogicCoreV2.totalTally w))).
    { unfold LogicCoreV2.totalTally, LogicCoreV2.checkFetalHeartRate,
        LogicCoreV2.checkPreeclampsia, LogicCoreV2.checkHypertension.
      rewrite <- Hs, <- Hd, <- Hp, Hsys, Hdia, Hprot. thresholds.
      split_tests; simpl in *; try lia; repeat split; try lia; auto. }
    destruct Hrules as (Hscore & Hin1 & Hin2).
    split; [lia |].
    exists (LogicCoreV2.generateResult (LogicCoreV2.totalTally w)).
    split; [reflexivity |].
    assert (Hgen : LogicCoreV2.generateResult (LogicCoreV2.totalTally w) =
      mkAssessment CRITICAL "#FF0000" "EMERGENCY: TRANSPORT NOW"
        (reasons (LogicCoreV2.totalTally w))).
    { unfold LogicCoreV2.generateResult.
      split_tests; try reflexivity; lia. }
    rewrite Hgen. simpl. auto.
Qed.

Lemma preeclampsia_rule_witness :
  let v := LogicCore.mkVitals 150 95 2 140 30 [] in
  let w := LogicCoreV2.mkVitals "p-1" 150 95 2 140 [] in
  (sameReadings v w /\ LogicCore.systolicBP v = 150 /\
   LogicCore.diastolicBP v = 95 /\ LogicCore.proteinuria v = 2) /\
  (exists tl c',
     LogicCore.totalTally LogicCore.runOfflineModel v [] = (Resolved tl, c') /\
     riskScore tl >= 60 /\
     outcome (LogicCore.assessPatientRiskWith LogicCore.runOfflineModel v) [] =
       Resolved (LogicCore.generateFinalAssessment tl) /\
     riskLevel (LogicCore.generateFinalAssessment tl) = CRITICAL /\
     In LogicCore.HYPERTENSION
        (reasoning (LogicCore.generateFinalAssessment tl)) /\
     In LogicCore.PREECLAMPSIA
        (reasoning (LogicCore.generateFinalAssessment tl))) /\
  (riskScore (LogicCoreV2.totalTally w) >= 60 /\
   exists r,
     outcome (LogicCoreV2.assessPatientRisk w) [] = Resolved r /\
     riskLevel r = CRITICAL /\
     In LogicCoreV2.HYPERTENSION (reasoning r) /\
     In LogicCoreV2.PREECLAMPSIA (reasoning r)).
Proof.
  intros v w.
  assert (Hsame : sameReadings v w) by (repeat split).
  split; [repeat split |].
  exact (proj2 (proj2
    (preeclampsia_rule v w (mkTally 0 []) LogicCore.runOfflineModel v w []
       Hsame eq_refl eq_refl eq_refl))).
Defined.

(** C4.  A tally whose score is below 10 maps to LOW, and the reasoning of
    the result is the single fixed message: the reasons of the tally,
    whatever they are, are not carried over.  So whenever the engine's total
    score is below 10 it resolves with that fixed LOW assessment. *)
Theorem low_tier_replaces_reasons (t : Tally) :
  riskScore t < 10 ->
  LogicCore.generateFinalAssessment t =
    mkAssessment LOW "#008000" "STABLE: Continue routine care."
      ["Vitals within normal limits"] /\
  LogicCoreV2.generateResult t =
    mkAssessment LOW "#008000" "STABLE" ["Normal limits"] /\
  (forall model v c c',
     LogicCore.totalTally model v c = (Resolved t, c') ->
     outcome (LogicCore.assessPatientRiskWith model v) c =
       Resolved (mkAssessment LOW "#008000" "STABLE: Continue routine care."
                   ["Vitals within normal limits"])) /\
  (forall w c,
     LogicCoreV2.totalTally w = t ->
     outcome (LogicCoreV2.assessPatientRisk w) c =
       Resolved (mkAssessment LOW "#008000" "STABLE" ["Normal limits"])).
Proof.
  intros Hlow.
  assert (H1 : LogicCore.generateFinalAssessment t =
    mkAssessment LOW "#008000" "STABLE: Continue routine care."
      ["Vitals within normal limits"]).
  { unfold LogicCore.generateFinalAssessment.
    split_tests; try reflexivity; lia. }
  assert (H2 : LogicCoreV2.generateResult t =
    mkAssessment LOW "#008000" "STABLE" ["Normal limits"]).
  { unfold LogicCoreV2.generateResult.
    split_tests; try reflexivity; lia. }
  repeat split; auto.
  - intros model v c c' Ht. unfold outcome.
    rewrite (LogicCoreFacts.assessPatientRiskWith_total _ _ _ _ _ Ht).
    simpl. now rewrite H1.
  - intros w c <-. unfold outcome. simpl. now rewrite H2.
Qed.

Lemma low_tier_replaces_reasons_witness :
  let t := mkTally 9 ["Hypertension detected"; "noted by the midwife"] in
  riskScore t < 10 /\
  reasoning (LogicCore.generateFinalAssessment t) =
    ["Vitals within normal limits"] /\
  reasoning (LogicCoreV2.generateResult t) = ["Normal limits"].
Proof.
  intros t.
  assert (Hlow : riskScore t < 10) by (simpl; lia).
  destruct (low_tier_replaces_reasons t Hlow) as (H1 & H2 & _).
  split; [exact Hlow |]. split.
  - now rewrite H1.
  - now rewrite H2.
Defined.

(** C5.  When the model fails (its promise is rejected, as when it throws
    or is not available), the engine resolves with exactly the assessment
    that rules 1-3 alone give: the tally of the deterministic rules is left
    as it is, one line goes to the console and nothing else changes.  The
    result is then the result of the shipped engine, whose placeholder
    model contributes nothing. *)
Theorem model_failure_falls_back_to_rules
  (model : LogicCore.PatientVitals -> Async Q)
  (v : LogicCore.PatientVitals) (c c' : Console) (e : JsError) :
  model v c = (Rejected e, c') ->
  LogicCore.totalTally model v c =
    (Resolved (LogicCore.deterministicRules v),
     c' ++ [LogicCore.AI_UNAVAILABLE]) /\
  outcome (LogicCore.assessPatientRiskWith model v) c =
    Resolved (LogicCore.assessByRulesOnly v) /\
  (forall c0,
     outcome (LogicCore.assessPatientRiskWith model v) c =
     outcome (LogicCore.assessPatientRisk v) c0).
Proof.
  intros H.
  assert (Ht : LogicCore.totalTally model v c =
    (Resolved (LogicCore.deterministicRules v),
     c' ++ [LogicCore.AI_UNAVAILABLE])).
  { unfold LogicCore.totalTally.
    exact (LogicCoreFacts.aiInference_rejected _ _ _ _ _ _ H). }
  assert (Ha : outcome (LogicCore.assessPatientRiskWith model v) c =
               Resolved (LogicCore.assessByRulesOnly v)).
  { unfold outcome.
    now rewrite (LogicCoreFacts.assessPatientRiskWith_total _ _ _ _ _ Ht). }
  repeat split; auto.
Qed.

Lemma model_failure_falls_back_to_rules_witness :
  let failing := fun _ : LogicCore.PatientVitals =>
                   @throw Q (mkError "Error" "TFLite model not loaded") in
  let v := LogicCore.mkVitals 150 95 0 100 30 ["headache"] in
  failing v [] = (Rejected (mkError "Error" "TFLite model not loaded"), []) /\
  outcome (LogicCore.assessPatientRiskWith failing v) [] =
    Resolved (LogicCore.assessByRulesOnly v).
Proof.
  intros failing v.
  assert (H : failing v [] =
              (Rejected (mkError "Error" "TFLite model not loaded"), []))
    by reflexivity.
  split; [exact H |].
  exact (proj1 (proj2 (model_failure_falls_back_to_rules failing v [] [] _ H))).
Defined.

(** The thresholds of the tier mapping, as intervals of the score. *)
Lemma tier_intervals (s : Z) (l : RiskLevel) :
  l = (if s >=? 50 then CRITICAL
       else if s >=? 20 then HIGH
       else if s >=? 10 then MEDIUM
       else LOW) ->
  (l = CRITICAL <-> 50 <= s) /\
  (l = HIGH <-> 20 <= s < 50) /\
  (l = MEDIUM <-> 10 <= s < 20) /\
  (l = LOW <-> s < 10).
Proof.
  intros ->.
  split_tests; repeat split; intros; try discriminate; try reflexivity; lia.
Qed.

Lemma colorOf_injective (l1 l2 : RiskLevel) :
  colorOf l1 = colorOf l2 -> l1 = l2.
Proof. destruct l1, l2; simpl; intros H; try reflexivity; discriminate H. Qed.

(** C6.  The tier mapping is closed at the lower end of each band: a score
    of exactly 50 is CRITICAL, 20 is HIGH, 10 is MEDIUM and 9 is LOW (and
    49, 19 fall in the band below); in general the tier is CRITICAL from
    50, HIGH on [20, 50), MEDIUM on [10, 20) and LOW below 10.  Every
    assessment the engine returns carries the colour of its tier (CRITICAL
    #FF0000, HIGH #FFA500, MEDIUM #FFFF00, LOW #008000), and distinct tiers
    have distinct colours. *)
Theorem tier_boundaries_and_colors
  (rs : list string) (t : Tally)
  (model : LogicCore.PatientVitals -> Async Q)
  (v : LogicCore.PatientVitals) (w : LogicCoreV2.PatientVitals) (c : Console) :
  (* the boundary scores *)
  (riskLevel (LogicCore.generateFinalAssessment (mkTally 50 rs)) = CRITICAL /\
   riskLevel (LogicCore.generateFinalAssessment (mkTally 49 rs)) = HIGH /\
   riskLevel (LogicCore.generateFinalAssessment (mkTally 20 rs)) = HIGH /\
   riskLevel (LogicCore.generateFinalAssessment (mkTally 19 rs)) = MEDIUM /\
   riskLevel (LogicCore.generateFinalAssessment (mkTally 10 rs)) = MEDIUM /\
   riskLevel (LogicCore.generateFinalAssessment (mkTally 9 rs)) = LOW) /\
  (riskLevel (LogicCoreV2.generateResult (mkTally 50 rs)) = CRITICAL /\
   riskLevel (LogicCoreV2.generateResult (mkTally 49 rs)) = HIGH /\
   riskLevel (LogicCoreV2.generateResult (mkTally 20 rs)) = HIGH /\
   riskLevel (LogicCoreV2.generateResult (mkTally 19 rs)) = MEDIUM /\
   riskLevel (LogicCoreV2.generateResult (mkTally 10 rs)) = MEDIUM /\
   riskLevel (LogicCoreV2.generateResult (mkTally 9 rs)) = LOW) /\
  (* the bands *)
  ((riskLevel (LogicCore.generateFinalAssessment t) = CRITICAL
      <-> 50 <= riskScore t) /\
   (riskLevel (LogicCore.generateFinalAssessment t) = HIGH
      <-> 20 <= riskScore t < 50) /\
   (riskLevel (LogicCore.generateFinalAssessment t) = MEDIUM
      <-> 10 <= riskScore t < 20) /\
   (riskLevel (LogicCore.generateFinalAssessment t) = LOW
      <-> riskScore t < 10)) /\
  ((riskLevel (LogicCoreV2.generateResult t) = CRITICAL
      <-> 50 <= riskScore t) /\
   (riskLevel (LogicCoreV2.generateResult t) = HIGH
      <-> 20 <= riskScore t < 50) /\
   (riskLevel (LogicCoreV2.generateResult t) = MEDIUM
      <-> 10 <= riskScore t < 20) /\
   (riskLevel (LogicCoreV2.generateResult t) = LOW
      <-> riskScore t < 10)) /\
  (* the colours *)
  uiColor (LogicCore.generateFinalAssessment t) =
    colorOf (riskLevel (LogicCore.generateFinalAssessment t)) /\
  uiColor (LogicCoreV2.generateResult t) =
    colorOf (riskLevel (LogicCoreV2.generateResult t)) /\
  (forall l1 l2, colorOf l1 = colorOf l2 -> l1 = l2) /\
  (exists r, outcome (LogicCore.assessPatientRiskWith model v) c = Resolved r
             /\ uiColor r = colorOf (riskLevel r)) /\
  (exists r, outcome (LogicCoreV2.assessPatientRisk w) c = Resolved r
             /\ uiColor r = colorOf (riskLevel r)).
Proof.
  split; [repeat split |]. split; [repeat split |].
  split; [apply tier_intervals, LogicCoreFacts.generateFinalAssessment_level |].
  split; [apply tier_intervals, LogicCoreV2Facts.generateResult_level |].
  split; [apply LogicCoreFacts.generateFinalAssessment_color |].
  split; [apply LogicCoreV2Facts.generateResult_color |].
  split; [exact colorOf_injective |]. split.
  - destruct (LogicCoreFacts.totalTally_cases model v c) as (tl & c' & Ht & _).
    exists (LogicCore.generateFinalAssessment tl). split.
    + unfold outcome.
      now rewrite (LogicCoreFacts.assessPatientRiskWith_total _ _ _ _ _ Ht).
    + apply LogicCoreFacts.generateFinalAssessment_color.
  - exists (LogicCoreV2.generateResult (LogicCoreV2.totalTally w)).
    split; [reflexivity | apply LogicCoreV2Facts.generateResult_color].
Qed.

(** C7.  The fetal distress rule adds 30 and appends a reason built around
    the decimal rendering of the observed heart rate exactly when
    fetalHeartRate < 110 or fetalHeartRate > 160.  In particular, with
    fetalHeartRate = 100, blood pressure below the high thresholds and
    proteinuria <= 1, the shipped engine's total score is 30, the tier is
    HIGH and the one reason contains "100" (likewise in the v2 engine). *)
Theorem fetal_distress_rule
  (u : LogicCore.PatientVitals) (u2 : LogicCoreV2.PatientVitals) (t : Tally)
  (v : LogicCore.PatientVitals) (w : LogicCoreV2.PatientVitals) (c : Console) :
  sameReadings v w ->
  LogicCore.fetalHeartRate v = 100 ->
  LogicCore.systolicBP v < 140 ->
  LogicCore.diastolicBP v < 90 ->
  LogicCore.proteinuria v <= 1 ->
  (* the rule, on any tally *)
  ((LogicCore.fetalHeartRate u < 110 \/ LogicCore.fetalHeartRate u > 160 ->
    LogicCore.checkFetalDistress u t =
      mkTally (riskScore t + 30) (reasons t ++ [LogicCore.fetalReason u])) /\
   (~ (LogicCore.fetalHeartRate u < 110 \/ LogicCore.fetalHeartRate u > 160) ->
    LogicCore.checkFetalDistress u t = t) /\
   (LogicCoreV2.fetalHeartRate u2 < 110 \/ LogicCoreV2.fetalHeartRate u2 > 160 ->
    LogicCoreV2.checkFetalHeartRate u2 t =
      mkTally (riskScore t + 30) (reasons t ++ [LogicCoreV2.fetalReason u2])) /\
   (~ (LogicCoreV2.fetalHeartRate u2 < 110 \/ LogicCoreV2.fetalHeartRate u2 > 160) ->
    LogicCoreV2.checkFetalHeartRate u2 t = t)) /\
  (* the reason interpolates the observed value *)
  (includes (numberToString (LogicCore.fetalHeartRate u))
            (LogicCore.fetalReason u) = true /\
   includes (numberToString (LogicCoreV2.fetalHeartRate u2))
            (LogicCoreV2.fetalReason u2) = true) /\
  (* the instance: fetal heart rate 100 in isolation *)
  (LogicCore.totalTally LogicCore.runOfflineModel v c =
     (Resolved (mkTally 30 ["Abnormal Fetal Heart Rate detected: 100 bpm"]), c) /\
   outcome (LogicCore.assessPatientRisk v) c =
     Resolved (mkAssessment HIGH "#FFA500"
                 "REFERRAL: Monitor closely and prepare for transport."
                 ["Abnormal Fetal Heart Rate detected: 100 bpm"]) /\
   includes "100" "Abnormal Fetal Heart Rate detected: 100 bpm" = true) /\
  (LogicCoreV2.totalTally w = mkTally 30 ["Abnormal Fetal Heart Rate: 100"] /\
   outcome (LogicCoreV2.assessPatientRisk w) c =
     Resolved (mkAssessment HIGH "#FFA500" "REFERRAL: Monitor & Prepare"
                 ["Abnormal Fetal Heart Rate: 100"]) /\
   includes "100" "Abnormal Fetal Heart Rate: 100" = true).
Proof.
  intros (Hs & Hd & Hp & Hf) Hfhr Hsys Hdia Hprot.
  split; [| split; [| split]].
  - unfold LogicCore.checkFetalDistress, LogicCoreV2.checkFetalHeartRate.
    thresholds.
    repeat split; intros H; split_tests; simpl; try reflexivity; lia.
  - split.
    + apply (includes_append "Abnormal Fetal Heart Rate detected: " _ " bpm").
    + apply (includes_append_l "Abnormal Fetal Heart Rate: ").
  - assert (Hrules : LogicCore.deterministicRules v =
              mkTally 30 ["Abnormal Fetal Heart Rate detected: 100 bpm"]).
    { unfold LogicCore.deterministicRules, LogicCore.checkFetalDistress,
        LogicCore.checkPreeclampsia, LogicCore.checkHypertension,
        LogicCore.fetalReason.
      rewrite Hfhr. thresholds.
      split_tests; simpl in *; try lia; reflexivity. }
    split; [| split].
    + rewrite LogicCoreFacts.totalTally_shipped. now rewrite Hrules.
    + unfold outcome. rewrite LogicCoreFacts.assessPatientRisk_shipped.
      unfold LogicCore.assessByRulesOnly. now rewrite Hrules.
    + reflexivity.
  - assert (Hrules : LogicCoreV2.totalTally w =
              mkTally 30 ["Abnormal Fetal Heart Rate: 100"]).
    { unfold LogicCoreV2.totalTally, LogicCoreV2.checkFetalHeartRate,
        LogicCoreV2.checkPreeclampsia, LogicCoreV2.checkHypertension,
        LogicCoreV2.fetalReason.
      rewrite <- Hf, <- Hs, <- Hd, <- Hp, Hfhr. thresholds.
      split_tests; simpl in *; try lia; reflexivity. }
    split; [exact Hrules |]. split; [| reflexivity].
    unfold outcome. rewrite LogicCoreV2Facts.assessPatientRisk_run.
    now rewrite Hrules.
Qed.

Lemma fetal_distress_rule_witness :
  let v := LogicCore.mkVitals 120 80 0 100 32 [] in
  let w := LogicCoreV2.mkVitals "p-1" 120 80 0 100 [] in
  (sameReadings v w /\ LogicCore.fetalHeartRate v = 100 /\
   LogicCore.systolicBP v < 140 /\ LogicCore.diastolicBP v < 90 /\
   LogicCore.proteinuria v <= 1) /\
  (LogicCore.totalTally LogicCore.runOfflineModel v [] =
     (Resolved (mkTally 30 ["Abnormal Fetal Heart Rate detected: 100 bpm"]), []) /\
   outcome (LogicCore.assessPatientRisk v) [] =
     Resolved (mkAssessment HIGH "#FFA500"
                 "REFERRAL: Monitor closely and prepare for transport."
                 ["Abnormal Fetal Heart Rate detected: 100 bpm"]) /\
   includes "100" "Abnormal Fetal Heart Rate detected: 100 bpm" = true).
Proof.
  intros v w.
  assert (Hsame : sameReadings v w) by (repeat split).
  assert (Hsys : LogicCore.systolicBP v < 140) by (simpl; lia).
  assert (Hdia : LogicCore.diastolicBP v < 90) by (simpl; lia).
  assert (Hprot : LogicCore.proteinuria v <= 1) by (simpl; lia).
  split; [repeat split; assumption |].
  exact (proj1 (proj2 (proj2
    (fetal_distress_rule v w (mkTally 0 []) v w []
       Hsame eq_refl Hsys Hdia Hprot)))).
Defined.

(** The final reasoning is the tally's reasons or the fixed LOW message. *)
Lemma reasoning_cases (t : Tally) :
  (reasoning (LogicCore.generateFinalAssessment t) = reasons t \/
   reasoning (LogicCore.generateFinalAssessment t) = [LogicCore.NORMAL]) /\
  (reasoning (LogicCoreV2.generateResult t) = reasons t \/
   reasoning (LogicCoreV2.generateResult t) = [LogicCoreV2.NORMAL]).
Proof.
  unfold LogicCore.generateFinalAssessment, LogicCoreV2.generateResult.
  destruct (riskScore t >=? 50); [simpl; auto |].
  destruct (riskScore t >=? 20); [simpl; auto |].
  destruct (riskScore t >=? 10); simpl; auto.
Qed.

(** The two hypertension reasons never sit together in a tally. *)
Lemma hypertension_reasons_exclusive v w :
  ~ (In LogicCore.SEVERE_HYPERTENSION (reasons (LogicCore.deterministicRules v))
     /\ In LogicCore.HYPERTENSION (reasons (LogicCore.deterministicRules v)))
  /\
  ~ (In LogicCoreV2.SEVERE_HYPERTENSION (reasons (LogicCoreV2.totalTally w))
     /\ In LogicCoreV2.HYPERTENSION (reasons (LogicCoreV2.totalTally w))).
Proof.
  split.
  - unfold LogicCore.deterministicRules, LogicCore.checkFetalDistress,
      LogicCore.checkPreeclampsia, LogicCore.checkHypertension.
    thresholds.
    split_tests; simpl in *; try lia; intros [Hsev Hhyp];
      repeat (destruct Hsev as [Hsev | Hsev]; try discriminate Hsev);
      repeat (destruct Hhyp as [Hhyp | Hhyp]; try discriminate Hhyp);
      contradiction.
  - unfold LogicCoreV2.totalTally, LogicCoreV2.checkFetalHeartRate,
      LogicCoreV2.checkPreeclampsia, LogicCoreV2.checkHypertension.
    thresholds.
    split_tests; simpl in *; try lia; intros [Hsev Hhyp];
      repeat (destruct Hsev as [Hsev | Hsev]; try discriminate Hsev);
      repeat (destruct Hhyp as [Hhyp | Hhyp]; try discriminate Hhyp);
      contradiction.
Qed.

(** C8.  The hypertension check takes one branch only: it adds 50 with the
    severe reason when a critical threshold is met (also when the high
    thresholds are met as well), else 20 with the plain reason when a high
    threshold is met, else nothing.  No assessment the engine returns holds
    both hypertension reasons. *)
Theorem hypertension_branches_exclusive
  (t : Tally) (model : LogicCore.PatientVitals -> Async Q)
  (v : LogicCore.PatientVitals) (w : LogicCoreV2.PatientVitals) (c : Console) :
  (((LogicCore.systolicBP v >= 160 \/ LogicCore.diastolicBP v >= 110) /\
    LogicCore.checkHypertension v t =
      mkTally (riskScore t + 50)
              (reasons t ++ [LogicCore.SEVERE_HYPERTENSION])) \/
   (~ (LogicCore.systolicBP v >= 160 \/ LogicCore.diastolicBP v >= 110) /\
    (LogicCore.systolicBP v >= 140 \/ LogicCore.diastolicBP v >= 90) /\
    LogicCore.checkHypertension v t =
      mkTally (riskScore t + 20) (reasons t ++ [LogicCore.HYPERTENSION])) \/
   (~ (LogicCore.systolicBP v >= 160 \/ LogicCore.diastolicBP v >= 110) /\
    ~ (LogicCore.systolicBP v >= 140 \/ LogicCore.diastolicBP v >= 90) /\
    LogicCore.checkHypertension v t = t)) /\
  (((LogicCoreV2.systolicBP w >= 160 \/ LogicCoreV2.diastolicBP w >= 110) /\
    LogicCoreV2.checkHypertension w t =
      mkTally (riskScore t + 50)
              (reasons t ++ [LogicCoreV2.SEVERE_HYPERTENSION])) \/
   (~ (LogicCoreV2.systolicBP w >= 160 \/ LogicCoreV2.diastolicBP w >= 110) /\
    (LogicCoreV2.systolicBP w >= 140 \/ LogicCoreV2.diastolicBP w >= 90) /\
    LogicCoreV2.checkHypertension w t =
      mkTally (riskScore t + 20) (reasons t ++ [LogicCoreV2.HYPERTENSION])) \/
   (~ (LogicCoreV2.systolicBP w >= 160 \/ LogicCoreV2.diastolicBP w >= 110) /\
    ~ (LogicCoreV2.systolicBP w >= 140 \/ LogicCoreV2.diastolicBP w >= 90) /\
    LogicCoreV2.checkHypertension w t = t)) /\
  (exists r,
     outcome (LogicCore.assessPatientRiskWith model v) c = Resolved r /\
     ~ (In LogicCore.SEVERE_HYPERTENSION (reasoning r) /\
        In LogicCore.HYPERTENSION (reasoning r))) /\
  (exists r,
     outcome (LogicCoreV2.assessPatientRisk w) c = Resolved r /\
     ~ (In LogicCoreV2.SEVERE_HYPERTENSION (reasoning r) /\
        In LogicCoreV2.HYPERTENSION (reasoning r))).
Proof.
  destruct (hypertension_reasons_exclusive v w) as [Hex Hex2].
  split; [| split; [| split]].
  - unfold LogicCore.checkHypertension. thresholds.
    split_tests; simpl.
    all: try (left; split; [lia | reflexivity]).
    all: try (right; left; split; [lia | split; [lia | reflexivity]]).
    all: right; right; split; [lia | split; [lia | reflexivity]].
  - unfold LogicCoreV2.checkHypertension. thresholds.
    split_tests; simpl.
    all: try (left; split; [lia | reflexivity]).
    all: try (right; left; split; [lia | split; [lia | reflexivity]]).
    all: right; right; split; [lia | split; [lia | reflexivity]].
  - destruct (LogicCoreFacts.totalTally_cases model v c)
      as (tl & c' & Ht & Hcase).
    exists (LogicCore.generateFinalAssessment tl). split.
    { unfold outcome.
      now rewrite (LogicCoreFacts.assessPatientRiskWith_total _ _ _ _ _ Ht). }
    assert (Htl : ~ (In LogicCore.SEVERE_HYPERTENSION (reasons tl) /\
                     In LogicCore.HYPERTENSION (reasons tl))).
    { destruct Hcase as [-> | ->]; [exact Hex |].
      simpl. intros [Hsev Hhyp]. apply Hex.
      apply in_app_or in Hsev, Hhyp.
      destruct Hsev as [Hsev | [Hsev | []]]; [| discriminate Hsev].
      destruct Hhyp as [Hhyp | [Hhyp | []]]; [| discriminate Hhyp].
      now split. }
    destruct (proj1 (reasoning_cases tl)) as [-> | ->]; [exact Htl |].
    simpl. intros [[Hsev | []] _]. discriminate Hsev.
  - exists (LogicCoreV2.generateResult (LogicCoreV2.totalTally w)).
    split; [reflexivity |].
    destruct (proj2 (reasoning_cases (LogicCoreV2.totalTally w)))
      as [-> | ->]; [exact Hex2 |].
    simpl. intros [[Hsev | []] _]. discriminate Hsev.
Qed.

(** What the engine resolves with is a function of how the model settles;
    the console plays no part. *)
Lemma assessPatientRiskWith_outcome model v c :
  outcome (LogicCore.assessPatientRiskWith model v) c =
    match outcome (model v) c with
    | Resolved q =>
        Resolved (LogicCore.generateFinalAssessment
          (if Qgtb q (3 # 4)%Q
           then mkTally (riskScore (LogicCore.deterministicRules v) + 15)
                        (reasons (LogicCore.deterministicRules v)
                           ++ [LogicCore.AI_MATCH])
           else LogicCore.deterministicRules v))
    | Rejected _ =>
        Resolved (LogicCore.generateFinalAssessment
                    (LogicCore.deterministicRules v))
    end.
Proof.
  unfold outcome.
  destruct (settles (model v) c) as [(q & c' & H) | (e & c' & H)]; rewrite H.
  - assert (Ht := LogicCoreFacts.aiInference_resolved
                    model v (LogicCore.deterministicRules v) c q c' H).
    fold (LogicCore.totalTally model v c) in Ht.
    now rewrite (LogicCoreFacts.assessPatientRiskWith_total _ _ _ _ _ Ht).
  - assert (Ht := LogicCoreFacts.aiInference_rejected
                    model v (LogicCore.deterministicRules v) c e c' H).
    fold (LogicCore.totalTally model v c) in Ht.
    now rewrite (LogicCoreFacts.assessPatientRiskWith_total _ _ _ _ _ Ht).
Qed.

(** Two calls in a row of a computation that always resolves with [r]. *)
Lemma twice_resolved {A} (m : Async A) (r : A) (c : Console) :
  (forall c0, outcome m c0 = Resolved r) ->
  outcome (twice m) c = Resolved (r, r).
Proof.
  intros H. unfold twice, outcome, bind.
  assert (H1 := H c). unfold outcome in H1.
  destruct (m c) as [o1 c1]. simpl in H1. subst o1.
  assert (H2 := H c1). unfold outcome in H2.
  destruct (m c1) as [o2 c2]. simpl in H2. subst o2.
  reflexivity.
Qed.

(** C9.  The engine is deterministic: with a model whose answer for these
    vitals does not depend on the moment of the call, any two calls with
    the same vitals resolve with the same AssessmentResult, and two calls
    made one after the other return a pair of equal results.  This holds in
    particular for the shipped engine and for the v2 engine. *)
Theorem assessment_is_deterministic
  (model : LogicCore.PatientVitals -> Async Q)
  (v : LogicCore.PatientVitals) (w : LogicCoreV2.PatientVitals)
  (c1 c2 : Console) :
  (forall c c', outcome (model v) c = outcome (model v) c') ->
  outcome (LogicCore.assessPatientRiskWith model v) c1 =
    outcome (LogicCore.assessPatientRiskWith model v) c2 /\
  (exists r,
     outcome (twice (LogicCore.assessPatientRiskWith model v)) c1 =
       Resolved (r, r)) /\
  outcome (LogicCore.assessPatientRisk v) c1 =
    outcome (LogicCore.assessPatientRisk v) c2 /\
  (exists r,
     outcome (twice (LogicCore.assessPatientRisk v)) c1 = Resolved (r, r)) /\
  outcome (LogicCoreV2.assessPatientRisk w) c1 =
    outcome (LogicCoreV2.assessPatientRisk w) c2 /\
  (exists r,
     outcome (twice (LogicCoreV2.assessPatientRisk w)) c1 = Resolved (r, r)).
Proof.
  intros Hdet.
  assert (Hsame : forall c c',
    outcome (LogicCore.assessPatientRiskWith model v) c =
    outcome (LogicCore.assessPatientRiskWith model v) c').
  { intros c c'. rewrite !assessPatientRiskWith_outcome.
    now rewrite (Hdet c c'). }
  split; [apply Hsame |]. split.
  - destruct (LogicCoreFacts.totalTally_cases model v c1)
      as (t & c' & Ht & _).
    exists (LogicCore.generateFinalAssessment t).
    apply twice_resolved. intros c0. rewrite (Hsame c0 c1).
    unfold outcome.
    now rewrite (LogicCoreFacts.assessPatientRiskWith_total _ _ _ _ _ Ht).
  - split; [reflexivity |]. split; [| split].
    + exists (LogicCore.assessByRulesOnly v).
      apply twice_resolved. reflexivity.
    + reflexivity.
    + exists (LogicCoreV2.generateResult (LogicCoreV2.totalTally w)).
      apply twice_resolved. reflexivity.
Qed.

Lemma assessment_is_deterministic_witness :
  let v := LogicCore.mkVitals 150 95 2 100 34 ["headache"] in
  let w := LogicCoreV2.mkVitals "p-1" 150 95 2 100 ["headache"] in
  (forall c c', outcome (LogicCore.runOfflineModel v) c =
                outcome (LogicCore.runOfflineModel v) c') /\
  outcome (LogicCore.assessPatientRiskWith LogicCore.runOfflineModel v) [] =
    outcome (LogicCore.assessPatientRiskWith LogicCore.runOfflineModel v)
      ["an earlier line"].
Proof.
  intros v w.
  assert (Hdet : forall c c', outcome (LogicCore.runOfflineModel v) c =
                              outcome (LogicCore.runOfflineModel v) c')
    by reflexivity.
  split; [exact Hdet |].
  exact (proj1 (assessment_is_deterministic LogicCore.runOfflineModel v w
                  [] ["an earlier line"] Hdet)).
Defined.

(** C10.  With the shipped placeholder model, which always answers 0.1
    (not above 0.75), the total score is one of 0, 20, 30, 50, 60, 80, 90,
    120, never in [10, 20), so the engine returns LOW, HIGH or CRITICAL and
    never MEDIUM.  The same holds for the v2 engine, which has no model. *)
Theorem medium_tier_unreachable
  (v : LogicCore.PatientVitals) (w : LogicCoreV2.PatientVitals) (c : Console) :
  (outcome (LogicCore.runOfflineModel v) c = Resolved (1 # 10)%Q /\
   Qgtb (1 # 10)%Q (3 # 4)%Q = false) /\
  (exists t r,
     LogicCore.totalTally LogicCore.runOfflineModel v c = (Resolved t, c) /\
     In (riskScore t) [0; 20; 30; 50; 60; 80; 90; 120] /\
     ~ (10 <= riskScore t < 20) /\
     outcome (LogicCore.assessPatientRisk v) c = Resolved r /\
     riskLevel r <> MEDIUM /\
     (riskLevel r = LOW \/ riskLevel r = HIGH \/ riskLevel r = CRITICAL)) /\
  (exists r,
     In (riskScore (LogicCoreV2.totalTally w)) [0; 20; 30; 50; 60; 80; 90; 120] /\
     ~ (10 <= riskScore (LogicCoreV2.totalTally w) < 20) /\
     outcome (LogicCoreV2.assessPatientRisk w) c = Resolved r /\
     riskLevel r <> MEDIUM /\
     (riskLevel r = LOW \/ riskLevel r = HIGH \/ riskLevel r = CRITICAL)).
Proof.
  assert (Hlevels : forall s,
    In s [0; 20; 30; 50; 60; 80; 90; 120] ->
    ~ (10 <= s < 20) /\
    forall l,
      l = (if s >=? 50 then CRITICAL
           else if s >=? 20 then HIGH
           else if s >=? 10 then MEDIUM
           else LOW) ->
      l <> MEDIUM /\ (l = LOW \/ l = HIGH \/ l = CRITICAL)).
  { intros s Hin. simpl in Hin.
    repeat (destruct Hin as [<- | Hin]); try contradiction;
      (split; [lia |]); intros l ->; simpl;
      (split; [discriminate | auto]). }
  split; [split; reflexivity |]. split.
  - assert (Hin := LogicCoreFacts.deterministicRules_score v).
    destruct (Hlevels _ Hin) as [Hout Hl].
    exists (LogicCore.deterministicRules v), (LogicCore.assessByRulesOnly v).
    split; [reflexivity |]. split; [exact Hin |]. split; [exact Hout |].
    split; [reflexivity |].
    apply Hl, LogicCoreFacts.generateFinalAssessment_level.
  - assert (Hin := LogicCoreV2Facts.totalTally_score w).
    destruct (Hlevels _ Hin) as [Hout Hl].
    exists (LogicCoreV2.generateResult (LogicCoreV2.totalTally w)).
    split; [exact Hin |]. split; [exact Hout |]. split; [reflexivity |].
    apply Hl, LogicCoreV2Facts.generateResult_level.
Qed.

(** The placeholder matters for C10: a model answering 0.9 on unremarkable
    vitals brings the score to 15, which is MEDIUM. *)
Example medium_tier_with_confident_model :
  outcome (LogicCore.assessPatientRiskWith (fun _ => ret (9 # 10)%Q)
             (LogicCore.mkVitals 120 80 0 140 30 [])) [] =
    Resolved (mkAssessment MEDIUM "#FFFF00"
                "WARNING: Re-assess vitals in 4 hours."
                ["AI Analysis: Pattern matches historical high-risk cases"]).
Proof. reflexivity. Qed.

(** * The calendar of [JsDate] *)

Module JsDateFacts.
Import JsDate.

Lemma DaysInYear_cases y : DaysInYear y = 365 \/ DaysInYear y = 366.
Proof.
  unfold DaysInYear.
  destruct (y mod 4 =? 0), (y mod 100 =? 0), (y mod 400 =? 0); simpl; auto.
Qed.

Lemma DayFromYear_succ y : DayFromYear (y + 1) = DayFromYear y + DaysInYear y.
Proof.
  unfold DayFromYear, DaysInYear.
  destruct (Z.eqb_spec (y mod 4) 0); destruct (Z.eqb_spec (y mod 100) 0);
    destruct (Z.eqb_spec (y mod 400) 0); cbn [negb];
    Z.div_mod_to_equations; lia.
Qed.

Lemma DayFromYear_mono y y' : y <= y' -> DayFromYear y <= DayFromYear y'.
Proof. unfold DayFromYear. intros H. Z.div_mod_to_equations. lia. Qed.

(** [yearOfDay] meets the characterisation of [YearFromTime]: the largest
    year that starts on or before the day. *)
Lemma yearOfDay_spec d :
  DayFromYear (yearOfDay d) <= d < DayFromYear (yearOfDay d + 1).
Proof.
  unfold yearOfDay.
  set (y := 1970 + 400 * d / 146097).
  destruct (Z.ltb_spec d (DayFromYear y)) as [Hlt | Hge].
  - replace (y - 1 + 1) with y by lia. split; [| lia].
    subst y. unfold DayFromYear in *. Z.div_mod_to_equations. lia.
  - destruct (Z.leb_spec (DayFromYear (y + 1)) d) as [Hle | Hlt].
    + split; [lia |].
      subst y. unfold DayFromYear in *. Z.div_mod_to_equations. lia.
    + lia.
Qed.

Lemma yearOfDay_unique d y :
  DayFromYear y <= d < DayFromYear (y + 1) -> yearOfDay d = y.
Proof.
  intros [Hlo Hhi].
  destruct (yearOfDay_spec d) as [Hlo' Hhi'].
  destruct (Z.lt_trichotomy (yearOfDay d) y) as [Hlt | [Heq | Hgt]].
  - assert (H := DayFromYear_mono (yearOfDay d + 1) y). lia.
  - exact Heq.
  - assert (H := DayFromYear_mono (y + 1) (yearOfDay d)). lia.
Qed.

(** A time value splits into its day and its time within the day. *)
Lemma Day_MakeDate day time :
  0 <= time < msPerDay ->
  Day (MakeDate day time) = day /\ TimeWithinDay (MakeDate day time) = time.
Proof.
  unfold Day, TimeWithinDay, MakeDate, msPerDay. intros H.
  Z.div_mod_to_equations. lia.
Qed.

Lemma MakeDate_Day t : MakeDate (Day t) (TimeWithinDay t) = t.
Proof.
  unfold Day, TimeWithinDay, MakeDate, msPerDay.
  Z.div_mod_to_equations. lia.
Qed.

Lemma TimeWithinDay_range t : 0 <= TimeWithinDay t < msPerDay.
Proof. unfold TimeWithinDay, msPerDay. Z.div_mod_to_equations. lia. Qed.


Lemma MonthFromTime_range t : 0 <= MonthFromTime t <= 11.
Proof.
  unfold MonthFromTime.
  repeat match goal with
  | |- context [Z.ltb ?a ?b] => destruct (Z.ltb a b)
  end; lia.
Qed.

Ltac month_cascade :=
  repeat match goal with
  | |- context [Z.ltb ?a ?b] => destruct (Z.ltb_spec a b)
  end.

Lemma DateFromTime_eq t :
  DateFromTime t =
    DayWithinYear t - daysBeforeMonth (MonthFromTime t) (InLeapYear t) + 1.
Proof.
  unfold DateFromTime, MonthFromTime.
  month_cascade; cbn [daysBeforeMonth]; lia.
Qed.


Lemma MakeDay_in_year y m dt :
  0 <= m <= 11 ->
  MakeDay y m dt =
    DayFromYear y + daysBeforeMonth m (DaysInYear y - 365) + dt - 1.
Proof.
  intros H. unfold MakeDay.
  rewrite (Z.div_small m 12), (Z.mod_small m 12) by lia.
  now rewrite Z.add_0_r.
Qed.

(** From a day to its fields and back. *)
Lemma MakeDay_fields t :
  MakeDay (YearFromTime t) (MonthFromTime t) (DateFromTime t) = Day t.
Proof.
  rewrite MakeDay_in_year by apply MonthFromTime_range.
  rewrite DateFromTime_eq. unfold InLeapYear, DayWithinYear. lia.
Qed.

Lemma MakeDay_date y m dt k : MakeDay y m (dt + k) = MakeDay y m dt + k.
Proof. unfold MakeDay. lia. Qed.

(** From fields to a day and back, for a date the month has. *)
Lemma fields_MakeDay t y m dt :
  0 <= m <= 11 -> 1 <= dt <= DaysInMonth m (DaysInYear y - 365) ->
  Day t = MakeDay y m dt ->
  YearFromTime t = y /\ MonthFromTime t = m /\ DateFromTime t = dt.
Proof.
  intros Hm Hdt Hday.
  rewrite MakeDay_in_year in Hday by exact Hm.
  assert (Hy := DaysInYear_cases y).
  assert (Hyear : YearFromTime t = y).
  { unfold YearFromTime. apply yearOfDay_unique.
    rewrite DayFromYear_succ, Hday.
    assert (Hcases : m = 0 \/ m = 1 \/ m = 2 \/ m = 3 \/ m = 4 \/ m = 5 \/
                     m = 6 \/ m = 7 \/ m = 8 \/ m = 9 \/ m = 10 \/ m = 11)
      by lia.
    repeat (destruct Hcases as [-> | Hcases]); try subst m;
      cbn [daysBeforeMonth DaysInMonth] in *; lia. }
  assert (Hmonth : MonthFromTime t = m).
  { unfold MonthFromTime, InLeapYear, DayWithinYear.
    rewrite Hyear, Hday.
    assert (Hcases : m = 0 \/ m = 1 \/ m = 2 \/ m = 3 \/ m = 4 \/ m = 5 \/
                     m = 6 \/ m = 7 \/ m = 8 \/ m = 9 \/ m = 10 \/ m = 11)
      by lia.
    repeat (destruct Hcases as [-> | Hcases]); try subst m;
      cbn [daysBeforeMonth DaysInMonth] in *; month_cascade; lia. }
  split; [exact Hyear |]. split; [exact Hmonth |].
  rewrite DateFromTime_eq, Hmonth. unfold InLeapYear, DayWithinYear.
  rewrite Hyear, Hday. lia.
Qed.


Lemma MakeDay_next_year y k dt :
  12 <= k <= 23 -> MakeDay y k dt = MakeDay (y + 1) (k - 12) dt.
Proof.
  intros Hk. unfold MakeDay.
  assert (Hq : k / 12 = 1) by (Z.div_mod_to_equations; lia).
  assert (Hr : k mod 12 = k - 12) by (Z.div_mod_to_equations; lia).
  assert (Hq' : (k - 12) / 12 = 0) by (Z.div_mod_to_equations; lia).
  assert (Hr' : (k - 12) mod 12 = k - 12) by (Z.div_mod_to_equations; lia).
  rewrite Hq, Hr, Hq', Hr'. now rewrite Z.add_0_r.
Qed.

(** Evaluates the closed month numbers under [daysBeforeMonth]. *)
Ltac eval_months :=
  repeat match goal with
  | |- context [daysBeforeMonth ?k _] =>
      lazymatch k with
      | Z0 => fail
      | Zpos _ => fail
      | _ => let k' := eval vm_compute in k in change k with k'
      end
  end;
  cbn [daysBeforeMonth].

(** Nine months on: the same date, 273 to 276 days later. *)
Lemma MakeDay_nine_months y m dt :
  0 <= m <= 11 ->
  273 <= MakeDay y (m + 9) dt - MakeDay y m dt <= 276.
Proof.
  intros Hm.
  assert (Hy := DaysInYear_cases y).
  assert (Hy1 := DaysInYear_cases (y + 1)).
  assert (Hs := DayFromYear_succ y).
  assert (Hcases : m = 0 \/ m = 1 \/ m = 2 \/ m = 3 \/ m = 4 \/ m = 5 \/
                   m = 6 \/ m = 7 \/ m = 8 \/ m = 9 \/ m = 10 \/ m = 11)
    by lia.
  destruct (Z.le_gt_cases m 2) as [Hlo | Hhi].
  - rewrite !MakeDay_in_year by lia.
    repeat (destruct Hcases as [-> | Hcases]); try subst m;
      try lia; eval_months; lia.
  - rewrite MakeDay_next_year by lia.
    rewrite !MakeDay_in_year by lia.
    repeat (destruct Hcases as [-> | Hcases]); try subst m;
      try lia; eval_months; lia.
Qed.

End JsDateFacts.

(** * Registration: the estimated delivery date *)

Module RegistrationFacts.
Import JsDate JsDateFacts Registration.


Lemma TimeClip_valid time :
  - 8640000000000000 <= time <= 8640000000000000 ->
  TimeClip time = TimeValue time.
Proof.
  intros H. unfold TimeClip.
  destruct (Z.gtb_spec (Z.abs time) 8640000000000000); [lia | reflexivity].
Qed.

Lemma Day_shift t k :
  Day (t + k * msPerDay) = Day t + k /\
  TimeWithinDay (t + k * msPerDay) = TimeWithinDay t.
Proof.
  unfold Day, TimeWithinDay, msPerDay. Z.div_mod_to_equations. lia.
Qed.

Section Zone.

Variable LocalTZA : Z.

(** [edd.setDate(edd.getDate() + k)] moves a date by [k] whole days. *)
Lemma setDate_getDate tv k :
  setDate LocalTZA (TimeValue tv) (plus (getDate LocalTZA (TimeValue tv)) k) =
    TimeClip (tv + k * msPerDay).
Proof.
  unfold setDate, getDate, plus.
  rewrite MakeDay_date, MakeDay_fields.
  f_equal. unfold UTC.
  assert (H := MakeDate_Day (LocalTime LocalTZA tv)).
  unfold MakeDate, LocalTime in *. lia.
Qed.

(** The estimated delivery date of a valid LMP, through the local calendar
    fields of the day a week after the LMP. *)
Lemma calculateEDD_fields tv :
  - 8640000000000000 <= tv <= 8640000000000000 - 7 * msPerDay ->
  let t1 := LocalTime LocalTZA (tv + 7 * msPerDay) in
  calculateEDD LocalTZA (TimeValue tv) =
    TimeClip (tv + 7 * msPerDay
              + (MakeDay (YearFromTime t1) (MonthFromTime t1 + 9)
                         (DateFromTime t1) - Day t1) * msPerDay).
Proof.
  intros Hrange t1. unfold calculateEDD.
  rewrite setDate_getDate.
  rewrite TimeClip_valid by (unfold msPerDay in *; lia).
  unfold setMonth, getMonth, plus. fold t1.
  f_equal. unfold UTC.
  assert (H := MakeDate_Day t1).
  unfold MakeDate in *. unfold t1 at 3 in H. unfold LocalTime in H. lia.
Qed.

End Zone.

End RegistrationFacts.

(** X1.  For a valid LMP (far enough from the end of the Date range),
    [calculateEDD] returns a valid date that is 280, 281, 282 or 283 whole
    days after the LMP, at the same time of day, in any zone. *)
Theorem calculateEDD_280_to_283_days (LocalTZA tv : Z) :
  - 8640000000000000 <= tv <= 8640000000000000 - 283 * JsDate.msPerDay ->
  exists k,
    280 <= k <= 283 /\
    Registration.calculateEDD LocalTZA (JsDate.TimeValue tv) =
      JsDate.TimeValue (tv + k * JsDate.msPerDay).
Proof.
  intros Hrange.
  rewrite RegistrationFacts.calculateEDD_fields
    by (unfold JsDate.msPerDay in *; lia).
  set (t1 := JsDate.LocalTime LocalTZA (tv + 7 * JsDate.msPerDay)).
  assert (Hm := JsDateFacts.MonthFromTime_range t1).
  assert (Hnine := JsDateFacts.MakeDay_nine_months
                     (JsDate.YearFromTime t1) (JsDate.MonthFromTime t1)
                     (JsDate.DateFromTime t1) Hm).
  rewrite JsDateFacts.MakeDay_fields in Hnine.
  set (K := JsDate.MakeDay (JsDate.YearFromTime t1)
              (JsDate.MonthFromTime t1 + 9) (JsDate.DateFromTime t1)
            - JsDate.Day t1) in *.
  exists (7 + K). split; [lia |].
  rewrite RegistrationFacts.TimeClip_valid
    by (unfold JsDate.msPerDay in *; lia).
  f_equal. lia.
Qed.

Lemma calculateEDD_280_to_283_days_witness :
  (- 8640000000000000 <= 1704067200000
     <= 8640000000000000 - 283 * JsDate.msPerDay) /\
  exists k,
    280 <= k <= 283 /\
    Registration.calculateEDD 3600000 (JsDate.TimeValue 1704067200000) =
      JsDate.TimeValue (1704067200000 + k * JsDate.msPerDay).
Proof.
  assert (H : - 8640000000000000 <= 1704067200000
                <= 8640000000000000 - 283 * JsDate.msPerDay)
    by (unfold JsDate.msPerDay; lia).
  split; [exact H |].
  exact (calculateEDD_280_to_283_days 3600000 1704067200000 H).
Defined.



(** X3.  The estimate is not monotone in the LMP.  Moving an LMP from the
    24th of May to the 25th (same time of day, any year) moves the
    estimated delivery date back, by one or two days: the 24th gives the
    2nd or 3rd of March (the 31st of February carried over), the 25th the
    1st of March. *)
Theorem calculateEDD_not_monotone (LocalTZA tv : Z) :
  - 8640000000000000 <= tv <= 8640000000000000 - 284 * JsDate.msPerDay ->
  JsDate.MonthFromTime (JsDate.LocalTime LocalTZA tv) = 4 ->
  JsDate.DateFromTime (JsDate.LocalTime LocalTZA tv) = 24 ->
  exists e1 e2,
    Registration.calculateEDD LocalTZA (JsDate.TimeValue tv) =
      JsDate.TimeValue e1 /\
    Registration.calculateEDD LocalTZA
      (JsDate.TimeValue (tv + JsDate.msPerDay)) = JsDate.TimeValue e2 /\
    JsDate.msPerDay <= e1 - e2 <= 2 * JsDate.msPerDay /\
    JsDate.MonthFromTime (JsDate.LocalTime LocalTZA e1) = 2 /\
    JsDate.MonthFromTime (JsDate.LocalTime LocalTZA e2) = 2 /\
    JsDate.DateFromTime (JsDate.LocalTime LocalTZA e2) = 1.
Proof.
  intros Hrange Hmonth Hdate.
  set (t := JsDate.LocalTime LocalTZA tv) in *.
  set (y := JsDate.YearFromTime t).
  assert (Hday : JsDate.Day t = JsDate.MakeDay y 4 24).
  { rewrite <- (JsDateFacts.MakeDay_fields t). fold y.
    now rewrite Hmonth, Hdate. }
  assert (Hy := JsDateFacts.DaysInYear_cases y).
  assert (Hy1 := JsDateFacts.DaysInYear_cases (y + 1)).
  assert (Hs := JsDateFacts.DayFromYear_succ y).
  rewrite JsDateFacts.MakeDay_in_year in Hday by lia.
  cbn [JsDate.daysBeforeMonth] in Hday.
  (* a week after the 24th: the 31st of May *)
  set (ta := JsDate.LocalTime LocalTZA (tv + 7 * JsDate.msPerDay)).
  assert (Eta : ta = t + 7 * JsDate.msPerDay)
    by (unfold ta, t, JsDate.LocalTime; lia).
  destruct (RegistrationFacts.Day_shift t 7) as [Hda _].
  rewrite <- Eta in Hda.
  assert (Hfa : JsDate.YearFromTime ta = y /\ JsDate.MonthFromTime ta = 4 /\
                JsDate.DateFromTime ta = 31).
  { apply JsDateFacts.fields_MakeDay; [lia | cbn [JsDate.DaysInMonth]; lia |].
    rewrite JsDateFacts.MakeDay_in_year by lia.
    cbn [JsDate.daysBeforeMonth]. lia. }
  destruct Hfa as (Hya & Hma & Hdta).
  (* a week after the 25th: the 1st of June *)
  set (tb := JsDate.LocalTime LocalTZA
               (tv + JsDate.msPerDay + 7 * JsDate.msPerDay)).
  assert (Etb : tb = t + 8 * JsDate.msPerDay)
    by (unfold tb, t, JsDate.LocalTime; lia).
  destruct (RegistrationFacts.Day_shift t 8) as [Hdb _].
  rewrite <- Etb in Hdb.
  assert (Hfb : JsDate.YearFromTime tb = y /\ JsDate.MonthFromTime tb = 5 /\
                JsDate.DateFromTime tb = 1).
  { apply JsDateFacts.fields_MakeDay; [lia | cbn [JsDate.DaysInMonth]; lia |].
    rewrite JsDateFacts.MakeDay_in_year by lia.
    cbn [JsDate.daysBeforeMonth]. lia. }
  destruct Hfb as (Hyb & Hmb & Hdtb).
  (* nine months on *)
  assert (Ha : JsDate.MakeDay y (4 + 9) 31 = JsDate.DayFromYear (y + 1) + 61).
  { rewrite JsDateFacts.MakeDay_next_year by lia.
    rewrite JsDateFacts.MakeDay_in_year by lia.
    change (4 + 9 - 12) with 1. cbn [JsDate.daysBeforeMonth]. lia. }
  assert (Hb : JsDate.MakeDay y (5 + 9) 1 =
               JsDate.DayFromYear (y + 1) + 59
               + (JsDate.DaysInYear (y + 1) - 365)).
  { rewrite JsDateFacts.MakeDay_next_year by lia.
    rewrite JsDateFacts.MakeDay_in_year by lia.
    change (5 + 9 - 12) with 2. cbn [JsDate.daysBeforeMonth]. lia. }
  set (e1 := tv + 7 * JsDate.msPerDay
             + (JsDate.DayFromYear (y + 1) + 61 - JsDate.Day ta)
               * JsDate.msPerDay).
  set (e2 := tv + JsDate.msPerDay + 7 * JsDate.msPerDay
             + (JsDate.DayFromYear (y + 1) + 59
                + (JsDate.DaysInYear (y + 1) - 365) - JsDate.Day tb)
               * JsDate.msPerDay).
  exists e1, e2.
  split.
  { rewrite RegistrationFacts.calculateEDD_fields
      by (unfold JsDate.msPerDay in *; lia).
    fold ta. rewrite Hya, Hma, Hdta, Ha.
    apply RegistrationFacts.TimeClip_valid.
    unfold e1, JsDate.msPerDay in *. lia. }
  split.
  { rewrite RegistrationFacts.calculateEDD_fields
      by (unfold JsDate.msPerDay in *; lia).
    fold tb. rewrite Hyb, Hmb, Hdtb, Hb.
    apply RegistrationFacts.TimeClip_valid.
    unfold e2, JsDate.msPerDay in *. lia. }
  split; [unfold e1, e2, JsDate.msPerDay in *; lia |].
  (* where the two estimates fall *)
  destruct (RegistrationFacts.Day_shift ta
              (JsDate.DayFromYear (y + 1) + 61 - JsDate.Day ta)) as [Hde1 _].
  replace (ta + (JsDate.DayFromYear (y + 1) + 61 - JsDate.Day ta)
                * JsDate.msPerDay)
    with (JsDate.LocalTime LocalTZA e1) in Hde1
    by (unfold e1, ta, JsDate.LocalTime; lia).
  destruct (RegistrationFacts.Day_shift tb
              (JsDate.DayFromYear (y + 1) + 59
               + (JsDate.DaysInYear (y + 1) - 365) - JsDate.Day tb))
    as [Hde2 _].
  replace (tb + (JsDate.DayFromYear (y + 1) + 59
                 + (JsDate.DaysInYear (y + 1) - 365) - JsDate.Day tb)
                * JsDate.msPerDay)
    with (JsDate.LocalTime LocalTZA e2) in Hde2
    by (unfold e2, tb, JsDate.LocalTime; lia).
  assert (Hf1 : JsDate.YearFromTime (JsDate.LocalTime LocalTZA e1) = y + 1 /\
                JsDate.MonthFromTime (JsDate.LocalTime LocalTZA e1) = 2 /\
                JsDate.DateFromTime (JsDate.LocalTime LocalTZA e1) =
                  3 - (JsDate.DaysInYear (y + 1) - 365)).
  { apply JsDateFacts.fields_MakeDay; [lia | cbn [JsDate.DaysInMonth]; lia |].
    rewrite JsDateFacts.MakeDay_in_year by lia.
    cbn [JsDate.daysBeforeMonth]. lia. }
  assert (Hf2 : JsDate.YearFromTime (JsDate.LocalTime LocalTZA e2) = y + 1 /\
                JsDate.MonthFromTime (JsDate.LocalTime LocalTZA e2) = 2 /\
                JsDate.DateFromTime (JsDate.LocalTime LocalTZA e2) = 1).
  { apply JsDateFacts.fields_MakeDay; [lia | cbn [JsDate.DaysInMonth]; lia |].
    rewrite JsDateFacts.MakeDay_in_year by lia.
    cbn [JsDate.daysBeforeMonth]. lia. }
  repeat split; tauto.
Qed.

Lemma calculateEDD_not_monotone_witness :
  (- 8640000000000000 <= 1684886400000
     <= 8640000000000000 - 284 * JsDate.msPerDay) /\
  JsDate.MonthFromTime (JsDate.LocalTime 3600000 1684886400000) = 4 /\
  JsDate.DateFromTime (JsDate.LocalTime 3600000 1684886400000) = 24 /\
  exists e1 e2,
    Registration.calculateEDD 3600000 (JsDate.TimeValue 1684886400000) =
      JsDate.TimeValue e1 /\
    Registration.calculateEDD 3600000
      (JsDate.TimeValue (1684886400000 + JsDate.msPerDay)) =
      JsDate.TimeValue e2 /\
    JsDate.msPerDay <= e1 - e2 <= 2 * JsDate.msPerDay.
Proof.
  assert (H : - 8640000000000000 <= 1684886400000
                <= 8640000000000000 - 284 * JsDate.msPerDay)
    by (unfold JsDate.msPerDay; lia).
  assert (Hm : JsDate.MonthFromTime (JsDate.LocalTime 3600000 1684886400000)
               = 4) by (vm_compute; reflexivity).
  assert (Hd : JsDate.DateFromTime (JsDate.LocalTime 3600000 1684886400000)
               = 24) by (vm_compute; reflexivity).
  split; [exact H |]. split; [exact Hm |]. split; [exact Hd |].
  destruct (calculateEDD_not_monotone 3600000 1684886400000 H Hm Hd)
    as (e1 & e2 & H1 & H2 & H3 & _).
  exists e1, e2. repeat split; tauto.
Defined.

Lemma append_assoc3 (a b c : string) :
  ((a ++ b) ++ c)%string = (a ++ b ++ c)%string.
Proof. induction a as [| x a IH]; simpl; [reflexivity | now rewrite IH]. Qed.

(** X4.  [registerPatient] rejects with the error "Missing required
    fields" when the name or the village is empty, before anything else
    happens: no identifier is drawn and nothing is logged, whatever the
    other arguments are. *)
Theorem registerPatient_rejects_missing_fields
  (LocalTZA : Z) (uuidv4 : Async string)
  (parseDate : string -> JsDate.Date) (now : JsDate.Date)
  (name village : string) (age : Z) (lmp : string) (c : Console) :
  name = "" \/ village = "" ->
  Registration.registerPatient LocalTZA uuidv4 parseDate now
    name village age lmp c =
    (Rejected (mkError "Error" "Missing required fields"), c).
Proof.
  intros H. unfold Registration.registerPatient.
  assert (E : String.eqb name "" || String.eqb village "" = true).
  { destruct H as [-> | ->]; [reflexivity |].
    rewrite String.eqb_refl. apply orb_true_r. }
  now rewrite E.
Qed.

Lemma registerPatient_rejects_missing_fields_witness :
  ("Amina" = "" \/ "" = "") /\
  Registration.registerPatient 3600000
    (fun c => (Resolved "id-1", c ++ ["uuid drawn"]))
    (fun _ => JsDate.InvalidDate) JsDate.InvalidDate
    "Amina" "" 27 "2024-01-01" [] =
    (Rejected (mkError "Error" "Missing required fields"), []).
Proof.
  assert (H : "Amina" = "" \/ "" = "") by (right; reflexivity).
  split; [exact H |].
  exact (registerPatient_rejects_missing_fields 3600000 _ _ _
           "Amina" "" 27 "2024-01-01" [] H).
Defined.

(** X5.  Every profile [registerPatient] resolves with was registered under
    a non-empty name and village, carries them and the age unchanged, has
    the identifier [uuidv4] returned, is PENDING, and its estimated
    delivery date is [calculateEDD] of its own LMP; exactly one line, naming
    the patient and the identifier, was logged after the identifier was
    drawn. *)
Theorem registerPatient_profile
  (LocalTZA : Z) (uuidv4 : Async string)
  (parseDate : string -> JsDate.Date) (now : JsDate.Date)
  (name village : string) (age : Z) (lmp : string) (c c' : Console)
  (p : Registration.PatientProfile) :
  Registration.registerPatient LocalTZA uuidv4 parseDate now
    name village age lmp c = (Resolved p, c') ->
  name <> "" /\ village <> "" /\
  Registration.fullName p = name /\
  Registration.village p = village /\
  Registration.age p = age /\
  Registration.lastMenstrualPeriod p = parseDate lmp /\
  Registration.estimatedDeliveryDate p =
    Registration.calculateEDD LocalTZA (Registration.lastMenstrualPeriod p) /\
  Registration.registeredAt p = now /\
  Registration.syncStatus p = Registration.PENDING /\
  exists c1 line,
    uuidv4 c = (Resolved (Registration.id p), c1) /\
    c' = c1 ++ [line] /\
    includes name line = true /\
    includes (Registration.id p) line = true.
Proof.
  unfold Registration.registerPatient.
  destruct (String.eqb_spec name "") as [-> | Hname];
    [simpl; intros H; discriminate H |].
  destruct (String.eqb_spec village "") as [-> | Hvillage];
    [simpl; intros H; discriminate H |].
  cbn [orb]. unfold bind at 1.
  destruct (uuidv4 c) as [[i | e] c1] eqn:Hu; [| intros H; discriminate H].
  unfold bind, console_log, ret. intros H. injection H as <- <-.
  cbn [Registration.fullName Registration.village Registration.age
       Registration.lastMenstrualPeriod Registration.estimatedDeliveryDate
       Registration.registeredAt Registration.syncStatus Registration.id].
  repeat (split; [first [assumption | reflexivity] |]).
  exists c1, ("User " ++ name ++ " registered offline with ID: " ++ i)%string.
  repeat split.
  - apply (includes_append "User " name).
  - replace ("User " ++ name ++ " registered offline with ID: " ++ i)%string
      with (("User " ++ name ++ " registered offline with ID: ") ++ i)%string
      by (now rewrite !append_assoc3).
    apply includes_append_l.
Qed.

Lemma registerPatient_profile_witness :
  let uuidv4 : Async string := fun c => (Resolved "id-1", c) in
  let parseDate : string -> JsDate.Date :=
    fun _ => JsDate.TimeValue 1704067200000 in
  let p := Registration.mkProfile "id-1" "Amina" "Kano" 27
             (JsDate.TimeValue 1704067200000)
             (Registration.calculateEDD 3600000
                (JsDate.TimeValue 1704067200000))
             (JsDate.TimeValue 1706745600000) Registration.PENDING in
  Registration.registerPatient 3600000 uuidv4 parseDate
    (JsDate.TimeValue 1706745600000) "Amina" "Kano" 27 "2024-01-01" [] =
    (Resolved p, ["User Amina registered offline with ID: id-1"]) /\
  Registration.syncStatus p = Registration.PENDING /\
  Registration.estimatedDeliveryDate p =
    Registration.calculateEDD 3600000 (Registration.lastMenstrualPeriod p).
Proof.
  intros uuidv4 parseDate p.
  assert (H : Registration.registerPatient 3600000 uuidv4 parseDate
                (JsDate.TimeValue 1706745600000) "Amina" "Kano" 27
                "2024-01-01" [] =
              (Resolved p, ["User Amina registered offline with ID: id-1"]))
    by reflexivity.
  split; [exact H |].
  destruct (registerPatient_profile _ _ _ _ _ _ _ _ _ _ _ H)
    as (_ & _ & _ & _ & _ & _ & Hedd & _ & Hsync & _).
  split; assumption.
Defined.

(** X6.  [registerPatient] does not catch a failure of [uuidv4]: with a
    name and a village given, an error thrown while the identifier is drawn
    is the error the registration rejects with, and no line is logged. *)
Theorem registerPatient_uuid_failure
  (LocalTZA : Z) (uuidv4 : Async string)
  (parseDate : string -> JsDate.Date) (now : JsDate.Date)
  (name village : string) (age : Z) (lmp : string) (c c1 : Console)
  (e : JsError) :
  name <> "" -> village <> "" ->
  uuidv4 c = (Rejected e, c1) ->
  Registration.registerPatient LocalTZA uuidv4 parseDate now
    name village age lmp c = (Rejected e, c1).
Proof.
  intros Hname Hvillage Hu. unfold Registration.registerPatient.
  destruct (String.eqb_spec name "") as [E | _]; [contradiction |].
  destruct (String.eqb_spec village "") as [E | _]; [contradiction |].
  cbn [orb]. now apply bind_rejected.
Qed.

Lemma registerPatient_uuid_failure_witness :
  let e := mkError "Error" "crypto.getRandomValues() not supported" in
  let uuidv4 : Async string := fun c => (Rejected e, c) in
  ("Amina" <> "" /\ "Kano" <> "" /\ uuidv4 [] = (Rejected e, [])) /\
  Registration.registerPatient 3600000 uuidv4 (fun _ => JsDate.InvalidDate)
    JsDate.InvalidDate "Amina" "Kano" 27 "2024-01-01" [] = (Rejected e, []).
Proof.
  intros e uuidv4.
  assert (Hn : "Amina" <> "") by discriminate.
  assert (Hv : "Kano" <> "") by discriminate.
  assert (Hu : uuidv4 [] = (Rejected e, [])) by reflexivity.
  split; [repeat split; assumption |].
  exact (registerPatient_uuid_failure 3600000 uuidv4 _ _
           "Amina" "Kano" 27 "2024-01-01" [] [] e Hn Hv Hu).
Defined.

(** X7.  Age and LMP are not validated: with a name and a village given and
    an identifier drawn, the registration resolves for any age (a negative
    one too) and any LMP string; when the string does not parse, the
    profile holds an Invalid Date both as LMP and as estimated delivery
    date. *)
Theorem registerPatient_accepts_any_age_and_lmp
  (LocalTZA : Z) (uuidv4 : Async string)
  (parseDate : string -> JsDate.Date) (now : JsDate.Date)
  (name village : string) (age : Z) (lmp : string) (c c1 : Console)
  (i : string) :
  name <> "" -> village <> "" ->
  uuidv4 c = (Resolved i, c1) ->
  exists p c',
    Registration.registerPatient LocalTZA uuidv4 parseDate now
      name village age lmp c = (Resolved p, c') /\
    Registration.id p = i /\
    Registration.age p = age /\
    (parseDate lmp = JsDate.InvalidDate ->
     Registration.lastMenstrualPeriod p = JsDate.InvalidDate /\
     Registration.estimatedDeliveryDate p = JsDate.InvalidDate).
Proof.
  intros Hname Hvillage Hu. unfold Registration.registerPatient.
  destruct (String.eqb_spec name "") as [E | _]; [contradiction |].
  destruct (String.eqb_spec village "") as [E | _]; [contradiction |].
  cbn [orb]. rewrite (bind_resolved _ _ _ _ _ Hu).
  eexists. eexists. split; [reflexivity |].
  cbn [Registration.id Registration.age Registration.lastMenstrualPeriod
       Registration.estimatedDeliveryDate].
  split; [reflexivity |]. split; [reflexivity |].
  intros Hparse. rewrite Hparse. split; reflexivity.
Qed.

Lemma registerPatient_accepts_any_age_and_lmp_witness :
  let uuidv4 : Async string := fun c => (Resolved "id-1", c) in
  let parseDate : string -> JsDate.Date := fun _ => JsDate.InvalidDate in
  ("Amina" <> "" /\ "Kano" <> "" /\ uuidv4 [] = (Resolved "id-1", [])) /\
  exists p c',
    Registration.registerPatient 3600000 uuidv4 parseDate JsDate.InvalidDate
      "Amina" "Kano" (-3) "not a date" [] = (Resolved p, c') /\
    Registration.id p = "id-1" /\
    Registration.age p = -3 /\
    (parseDate "not a date" = JsDate.InvalidDate ->
     Registration.lastMenstrualPeriod p = JsDate.InvalidDate /\
     Registration.estimatedDeliveryDate p = JsDate.InvalidDate).
Proof.
  intros uuidv4 parseDate.
  assert (Hn : "Amina" <> "") by discriminate.
  assert (Hv : "Kano" <> "") by discriminate.
  assert (Hu : uuidv4 [] = (Resolved "id-1", [])) by reflexivity.
  split; [repeat split; assumption |].
  exact (registerPatient_accepts_any_age_and_lmp 3600000 uuidv4 parseDate
           JsDate.InvalidDate "Amina" "Kano" (-3) "not a date" [] [] "id-1"
           Hn Hv Hu).
Defined.

(** * The triage engine: further properties *)

(** X8.  The engine looks at nothing but the four readings: vitals that
    agree on systolic and diastolic pressure, proteinuria and fetal heart
    rate get the same assessment, whatever their symptoms, gestational age
    or patient identifier are (with a model hook, as long as the model
    settles alike on both). *)
Theorem assessment_depends_on_readings_only
  (model : LogicCore.PatientVitals -> Async Q)
  (v v' : LogicCore.PatientVitals) (w w' : LogicCoreV2.PatientVitals)
  (c c' : Console) :
  readings v = readings v' ->
  readingsV2 w = readingsV2 w' ->
  (outcome (model v) c = outcome (model v') c' ->
   outcome (LogicCore.assessPatientRiskWith model v) c =
   outcome (LogicCore.assessPatientRiskWith model v') c') /\
  outcome (LogicCore.assessPatientRisk v) c =
    outcome (LogicCore.assessPatientRisk v') c' /\
  outcome (LogicCoreV2.assessPatientRisk w) c =
    outcome (LogicCoreV2.assessPatientRisk w') c'.
Proof.
  intros Hv Hw.
  assert (Hrules : LogicCore.deterministicRules v =
                   LogicCore.deterministicRules v').
  { destruct v, v'. unfold readings in Hv. simpl in Hv.
    injection Hv as -> -> -> ->. reflexivity. }
  assert (Hrules2 : LogicCoreV2.totalTally w = LogicCoreV2.totalTally w').
  { destruct w, w'. unfold readingsV2 in Hw. simpl in Hw.
    injection Hw as -> -> -> ->. reflexivity. }
  split; [| split].
  - intros Hmodel. rewrite !assessPatientRiskWith_outcome.
    now rewrite Hmodel, Hrules.
  - unfold outcome. rewrite !LogicCoreFacts.assessPatientRisk_shipped.
    unfold LogicCore.assessByRulesOnly. now rewrite Hrules.
  - unfold outcome. rewrite !LogicCoreV2Facts.assessPatientRisk_run.
    now rewrite Hrules2.
Qed.

Lemma assessment_depends_on_readings_only_witness :
  let v := LogicCore.mkVitals 150 95 2 100 34 ["headache"; "blurred_vision"] in
  let v' := LogicCore.mkVitals 150 95 2 100 12 [] in
  let w := LogicCoreV2.mkVitals "p-1" 150 95 2 100 ["headache"] in
  let w' := LogicCoreV2.mkVitals "p-2" 150 95 2 100 [] in
  (readings v = readings v' /\ readingsV2 w = readingsV2 w') /\
  outcome (LogicCore.assessPatientRisk v) [] =
    outcome (LogicCore.assessPatientRisk v') ["an earlier line"] /\
  outcome (LogicCoreV2.assessPatientRisk w) [] =
    outcome (LogicCoreV2.assessPatientRisk w') ["an earlier line"].
Proof.
  intros v v' w w'.
  assert (Hv : readings v = readings v') by reflexivity.
  assert (Hw : readingsV2 w = readingsV2 w') by reflexivity.
  split; [split; assumption |].
  exact (proj2 (assessment_depends_on_readings_only LogicCore.runOfflineModel
                  v v' w w' [] ["an earlier line"] Hv Hw)).
Defined.

(** The reasons of the two revisions go rule by rule. *)
Lemma revisions_agree_on_reasons v w :
  sameReadings v w ->
  length (reasons (LogicCore.deterministicRules v)) =
  length (reasons (LogicCoreV2.totalTally w)).
Proof.
  intros (Hs & Hd & Hp & Hf).
  unfold LogicCore.deterministicRules, LogicCoreV2.totalTally,
    LogicCore.checkFetalDistress, LogicCoreV2.checkFetalHeartRate,
    LogicCore.checkPreeclampsia, LogicCoreV2.checkPreeclampsia,
    LogicCore.checkHypertension, LogicCoreV2.checkHypertension.
  rewrite Hs, Hd, Hp, Hf.
  thresholds. split_tests; simpl in *; try lia; reflexivity.
Qed.

(** X9.  The two revisions of the engine agree: on the same readings the
    shipped engine of logic.ts and the v2 engine reach the same score, the
    same risk level and colour, and give the same number of reasons (their
    wording differs). *)
Theorem revisions_agree
  (v : LogicCore.PatientVitals) (w : LogicCoreV2.PatientVitals)
  (c c' : Console) :
  sameReadings v w ->
  riskScore (LogicCore.deterministicRules v) =
    riskScore (LogicCoreV2.totalTally w) /\
  exists r r',
    outcome (LogicCore.assessPatientRisk v) c = Resolved r /\
    outcome (LogicCoreV2.assessPatientRisk w) c' = Resolved r' /\
    riskLevel r = riskLevel r' /\
    uiColor r = uiColor r' /\
    length (reasoning r) = length (reasoning r').
Proof.
  intros Hsame.
  assert (Hscore := revisions_agree_on_score v w Hsame).
  assert (Hlen := revisions_agree_on_reasons v w Hsame).
  split; [exact Hscore |].
  exists (LogicCore.assessByRulesOnly v),
         (LogicCoreV2.generateResult (LogicCoreV2.totalTally w)).
  split; [reflexivity |]. split; [reflexivity |].
  unfold LogicCore.assessByRulesOnly, LogicCore.generateFinalAssessment,
    LogicCoreV2.generateResult.
  rewrite <- Hscore.
  destruct (riskScore (LogicCore.deterministicRules v) >=? 50);
    [simpl; auto |].
  destruct (riskScore (LogicCore.deterministicRules v) >=? 20);
    [simpl; auto |].
  destruct (riskScore (LogicCore.deterministicRules v) >=? 10); simpl; auto.
Qed.

Lemma revisions_agree_witness :
  let v := LogicCore.mkVitals 150 95 2 100 34 ["headache"] in
  let w := LogicCoreV2.mkVitals "p-1" 150 95 2 100 ["headache"] in
  sameReadings v w /\
  riskScore (LogicCore.deterministicRules v) =
    riskScore (LogicCoreV2.totalTally w).
Proof.
  intros v w.
  assert (Hsame : sameReadings v w) by (repeat split).
  split; [exact Hsame |].
  exact (proj1 (revisions_agree v w [] [] Hsame)).
Defined.

(** How many reasons STEP A leaves, against its score. *)
Lemma deterministicRules_reasons v w :
  ((length (reasons (LogicCore.deterministicRules v)) <= 3)%nat /\
   (10 <= riskScore (LogicCore.deterministicRules v) ->
    (1 <= length (reasons (LogicCore.deterministicRules v)))%nat)) /\
  ((length (reasons (LogicCoreV2.totalTally w)) <= 3)%nat /\
   (10 <= riskScore (LogicCoreV2.totalTally w) ->
    (1 <= length (reasons (LogicCoreV2.totalTally w)))%nat)).
Proof.
  split.
  - unfold LogicCore.deterministicRules, LogicCore.checkFetalDistress,
      LogicCore.checkPreeclampsia, LogicCore.checkHypertension.
    thresholds. split_tests; simpl in *; lia.
  - unfold LogicCoreV2.totalTally, LogicCoreV2.checkFetalHeartRate,
      LogicCoreV2.checkPreeclampsia, LogicCoreV2.checkHypertension.
    thresholds. split_tests; simpl in *; lia.
Qed.

(** X10.  An assessment always explains itself: the reasoning the engine
    returns is never empty and has at most four entries with a model hook,
    at most three in the shipped engine and in the v2 engine. *)
Theorem reasoning_is_never_empty
  (model : LogicCore.PatientVitals -> Async Q)
  (v : LogicCore.PatientVitals) (w : LogicCoreV2.PatientVitals) (c : Console) :
  (exists r,
     outcome (LogicCore.assessPatientRiskWith model v) c = Resolved r /\
     (1 <= length (reasoning r) <= 4)%nat) /\
  (exists r,
     outcome (LogicCore.assessPatientRisk v) c = Resolved r /\
     (1 <= length (reasoning r) <= 3)%nat) /\
  (exists r,
     outcome (LogicCoreV2.assessPatientRisk w) c = Resolved r /\
     (1 <= length (reasoning r) <= 3)%nat).
Proof.
  destruct (deterministicRules_reasons v w) as [[Hmax Hmin] [Hmax2 Hmin2]].
  assert (Hgen : forall t n,
    (length (reasons t) <= n)%nat -> (1 <= n)%nat ->
    (10 <= riskScore t -> (1 <= length (reasons t))%nat) ->
    (1 <= length (reasoning (LogicCore.generateFinalAssessment t)) <= n)%nat).
  { intros t n Hn H1 Hlow. unfold LogicCore.generateFinalAssessment.
    split_tests; simpl; lia. }
  assert (Hgen2 : forall t n,
    (length (reasons t) <= n)%nat -> (1 <= n)%nat ->
    (10 <= riskScore t -> (1 <= length (reasons t))%nat) ->
    (1 <= length (reasoning (LogicCoreV2.generateResult t)) <= n)%nat).
  { intros t n Hn H1 Hlow. unfold LogicCoreV2.generateResult.
    split_tests; simpl; lia. }
  split; [| split].
  - destruct (LogicCoreFacts.totalTally_cases model v c)
      as (t & c' & Ht & Hcase).
    exists (LogicCore.generateFinalAssessment t). split.
    { unfold outcome.
      now rewrite (LogicCoreFacts.assessPatientRiskWith_total _ _ _ _ _ Ht). }
    apply Hgen; [| lia |].
    + destruct Hcase as [-> | ->]; [lia |].
      simpl. rewrite length_app. simpl. lia.
    + destruct Hcase as [-> | ->]; [exact Hmin |].
      simpl. rewrite length_app. simpl. lia.
  - exists (LogicCore.assessByRulesOnly v). split; [reflexivity |].
    apply Hgen; [exact Hmax | lia | exact Hmin].
  - exists (LogicCoreV2.generateResult (LogicCoreV2.totalTally w)).
    split; [reflexivity |].
    apply Hgen2; [exact Hmax2 | lia | exact Hmin2].
Qed.

(** The score of STEP A, written out on the readings. *)
Lemma deterministicRules_score_eq v :
  riskScore (LogicCore.deterministicRules v) =
    (if (LogicCore.systolicBP v >=? 160) || (LogicCore.diastolicBP v >=? 110)
     then 50
     else if (LogicCore.systolicBP v >=? 140) || (LogicCore.diastolicBP v >=? 90)
     then if LogicCore.proteinuria v >? 1 then 60 else 20
     else 0)
    + (if (LogicCore.systolicBP v >=? 160) || (LogicCore.diastolicBP v >=? 110)
       then if LogicCore.proteinuria v >? 1 then 40 else 0
       else 0)
    + (if (LogicCore.fetalHeartRate v <? 110) || (LogicCore.fetalHeartRate v >? 160)
       then 30 else 0).
Proof.
  unfold LogicCore.deterministicRules, LogicCore.checkFetalDistress,
    LogicCore.checkPreeclampsia, LogicCore.checkHypertension.
  thresholds. split_tests; simpl in *; lia.
Qed.

(** Closes one row of a decision table: each equivalence by its two
    directions. *)
Ltac decision_rows :=
  repeat split; intros;
  try discriminate; try reflexivity; try lia;
  intuition (try discriminate; try lia).

(** X11.  The decision table of the shipped engine (and of the v2 engine),
    on the readings.  With critical = systolic >= 160 or diastolic >= 110,
    high = systolic >= 140 or diastolic >= 90, protein = proteinuria > 1 and
    abnormal = fetal heart rate < 110 or > 160: the level is CRITICAL
    exactly when critical, or high together with protein or abnormal; LOW
    exactly when neither high nor abnormal; HIGH in the remaining cases.
    Proteinuria alone, without high blood pressure, changes nothing. *)
Theorem triage_decision_table
  (v : LogicCore.PatientVitals) (w : LogicCoreV2.PatientVitals) (c : Console) :
  (exists r,
     outcome (LogicCore.assessPatientRisk v) c = Resolved r /\
     (riskLevel r = CRITICAL <->
        (LogicCore.systolicBP v >= 160 \/ LogicCore.diastolicBP v >= 110) \/
        ((LogicCore.systolicBP v >= 140 \/ LogicCore.diastolicBP v >= 90) /\
         (LogicCore.proteinuria v > 1 \/
          LogicCore.fetalHeartRate v < 110 \/ LogicCore.fetalHeartRate v > 160)))
     /\
     (riskLevel r = LOW <->
        ~ (LogicCore.systolicBP v >= 140 \/ LogicCore.diastolicBP v >= 90) /\
        ~ (LogicCore.fetalHeartRate v < 110 \/ LogicCore.fetalHeartRate v > 160))
     /\
     (riskLevel r = HIGH <-> riskLevel r <> CRITICAL /\ riskLevel r <> LOW)) /\
  (exists r,
     outcome (LogicCoreV2.assessPatientRisk w) c = Resolved r /\
     (riskLevel r = CRITICAL <->
        (LogicCoreV2.systolicBP w >= 160 \/ LogicCoreV2.diastolicBP w >= 110) \/
        ((LogicCoreV2.systolicBP w >= 140 \/ LogicCoreV2.diastolicBP w >= 90) /\
         (LogicCoreV2.proteinuria w > 1 \/
          LogicCoreV2.fetalHeartRate w < 110 \/
          LogicCoreV2.fetalHeartRate w > 160)))
     /\
     (riskLevel r = LOW <->
        ~ (LogicCoreV2.systolicBP w >= 140 \/ LogicCoreV2.diastolicBP w >= 90) /\
        ~ (LogicCoreV2.fetalHeartRate w < 110 \/
           LogicCoreV2.fetalHeartRate w > 160))
     /\
     (riskLevel r = HIGH <-> riskLevel r <> CRITICAL /\ riskLevel r <> LOW)).
Proof.
  split.
  - exists (LogicCore.assessByRulesOnly v). split; [reflexivity |].
    unfold LogicCore.assessByRulesOnly.
    rewrite LogicCoreFacts.generateFinalAssessment_level.
    rewrite deterministicRules_score_eq.
    rewrite !Z.geb_leb, !Z.gtb_ltb.
    destruct (Z.leb_spec 160 (LogicCore.systolicBP v)),
             (Z.leb_spec 110 (LogicCore.diastolicBP v)),
             (Z.leb_spec 140 (LogicCore.systolicBP v)),
             (Z.leb_spec 90 (LogicCore.diastolicBP v)),
             (Z.ltb_spec 1 (LogicCore.proteinuria v)),
             (Z.ltb_spec (LogicCore.fetalHeartRate v) 110),
             (Z.ltb_spec 160 (LogicCore.fetalHeartRate v));
      simpl; try lia; decision_rows.
  - set (v' := LogicCore.mkVitals (LogicCoreV2.systolicBP w)
                 (LogicCoreV2.diastolicBP w) (LogicCoreV2.proteinuria w)
                 (LogicCoreV2.fetalHeartRate w) 0 []).
    assert (Hsame : sameReadings v' w) by (repeat split).
    exists (LogicCoreV2.generateResult (LogicCoreV2.totalTally w)).
    split; [reflexivity |].
    rewrite LogicCoreV2Facts.generateResult_level.
    rewrite <- (revisions_agree_on_score v' w Hsame).
    rewrite deterministicRules_score_eq. subst v'.
    cbn [LogicCore.systolicBP LogicCore.diastolicBP LogicCore.proteinuria
         LogicCore.fetalHeartRate].
    rewrite !Z.geb_leb, !Z.gtb_ltb.
    destruct (Z.leb_spec 160 (LogicCoreV2.systolicBP w)),
             (Z.leb_spec 110 (LogicCoreV2.diastolicBP w)),
             (Z.leb_spec 140 (LogicCoreV2.systolicBP w)),
             (Z.leb_spec 90 (LogicCoreV2.diastolicBP w)),
             (Z.ltb_spec 1 (LogicCoreV2.proteinuria w)),
             (Z.ltb_spec (LogicCoreV2.fetalHeartRate w) 110),
             (Z.ltb_spec 160 (LogicCoreV2.fetalHeartRate w));
      simpl; try lia; decision_rows.
Qed.

(** The tier mapping is monotone in the score. *)
Lemma severity_mono (s s' : Z) (rs rs' : list string) :
  s <= s' ->
  severity (riskLevel (LogicCore.generateFinalAssessment (mkTally s rs)))
    <= severity (riskLevel (LogicCore.generateFinalAssessment (mkTally s' rs')))
  /\
  severity (riskLevel (LogicCoreV2.generateResult (mkTally s rs)))
    <= severity (riskLevel (LogicCoreV2.generateResult (mkTally s' rs'))).
Proof.
  intros H.
  rewrite !LogicCoreFacts.generateFinalAssessment_level,
          !LogicCoreV2Facts.generateResult_level.
  cbn [riskScore]. split_tests; simpl; lia.
Qed.

Lemma deterministicRules_mono v v' :
  LogicCore.systolicBP v <= LogicCore.systolicBP v' ->
  LogicCore.diastolicBP v <= LogicCore.diastolicBP v' ->
  LogicCore.proteinuria v <= LogicCore.proteinuria v' ->
  LogicCore.fetalHeartRate v = LogicCore.fetalHeartRate v' ->
  riskScore (LogicCore.deterministicRules v)
    <= riskScore (LogicCore.deterministicRules v').
Proof.
  intros Hs Hd Hp Hf.
  rewrite !deterministicRules_score_eq. rewrite <- Hf.
  assert (Hcrit :
    (LogicCore.systolicBP v >=? 160) || (LogicCore.diastolicBP v >=? 110) = true ->
    (LogicCore.systolicBP v' >=? 160) || (LogicCore.diastolicBP v' >=? 110) = true).
  { split_tests; simpl; intros; try reflexivity; try discriminate; lia. }
  assert (Hhigh :
    (LogicCore.systolicBP v >=? 140) || (LogicCore.diastolicBP v >=? 90) = true ->
    (LogicCore.systolicBP v' >=? 140) || (LogicCore.diastolicBP v' >=? 90) = true).
  { split_tests; simpl; intros; try reflexivity; try discriminate; lia. }
  assert (Hprot : (LogicCore.proteinuria v >? 1) = true ->
                  (LogicCore.proteinuria v' >? 1) = true).
  { split_tests; simpl; intros; try reflexivity; try discriminate; lia. }
  destruct ((LogicCore.systolicBP v >=? 160) || (LogicCore.diastolicBP v >=? 110)),
           ((LogicCore.systolicBP v' >=? 160) || (LogicCore.diastolicBP v' >=? 110)),
           ((LogicCore.systolicBP v >=? 140) || (LogicCore.diastolicBP v >=? 90)),
           ((LogicCore.systolicBP v' >=? 140) || (LogicCore.diastolicBP v' >=? 90)),
           (LogicCore.proteinuria v >? 1), (LogicCore.proteinuria v' >? 1),
           ((LogicCore.fetalHeartRate v <? 110) || (LogicCore.fetalHeartRate v >? 160));
    try (specialize (Hcrit eq_refl); discriminate Hcrit);
    try (specialize (Hhigh eq_refl); discriminate Hhigh);
    try (specialize (Hprot eq_refl); discriminate Hprot);
    lia.
Qed.

(** X12.  Worse readings never lower the assessed risk: raising the
    systolic pressure, the diastolic pressure or the proteinuria grade,
    the fetal heart rate staying as it is, never lowers the score nor the
    risk level (LOW < MEDIUM < HIGH < CRITICAL), in either revision. *)
Theorem worse_readings_never_lower_risk
  (v v' : LogicCore.PatientVitals) (w w' : LogicCoreV2.PatientVitals)
  (c c' : Console) :
  sameReadings v w -> sameReadings v' w' ->
  LogicCore.systolicBP v <= LogicCore.systolicBP v' ->
  LogicCore.diastolicBP v <= LogicCore.diastolicBP v' ->
  LogicCore.proteinuria v <= LogicCore.proteinuria v' ->
  LogicCore.fetalHeartRate v = LogicCore.fetalHeartRate v' ->
  riskScore (LogicCore.deterministicRules v)
    <= riskScore (LogicCore.deterministicRules v') /\
  riskScore (LogicCoreV2.totalTally w) <= riskScore (LogicCoreV2.totalTally w') /\
  (exists r r',
     outcome (LogicCore.assessPatientRisk v) c = Resolved r /\
     outcome (LogicCore.assessPatientRisk v') c' = Resolved r' /\
     severity (riskLevel r) <= severity (riskLevel r')) /\
  (exists r r',
     outcome (LogicCoreV2.assessPatientRisk w) c = Resolved r /\
     outcome (LogicCoreV2.assessPatientRisk w') c' = Resolved r' /\
     severity (riskLevel r) <= severity (riskLevel r')).
Proof.
  intros Hsame Hsame' Hs Hd Hp Hf.
  assert (Hmono := deterministicRules_mono v v' Hs Hd Hp Hf).
  assert (E := revisions_agree_on_score v w Hsame).
  assert (E' := revisions_agree_on_score v' w' Hsame').
  split; [exact Hmono |]. split; [lia |]. split.
  - exists (LogicCore.assessByRulesOnly v), (LogicCore.assessByRulesOnly v').
    split; [reflexivity |]. split; [reflexivity |].
    unfold LogicCore.assessByRulesOnly.
    destruct (LogicCore.deterministicRules v) as [s rs].
    destruct (LogicCore.deterministicRules v') as [s' rs'].
    apply severity_mono. exact Hmono.
  - exists (LogicCoreV2.generateResult (LogicCoreV2.totalTally w)),
           (LogicCoreV2.generateResult (LogicCoreV2.totalTally w')).
    split; [reflexivity |]. split; [reflexivity |].
    destruct (LogicCoreV2.totalTally w) as [s rs].
    destruct (LogicCoreV2.totalTally w') as [s' rs'].
    apply severity_mono. simpl in *. lia.
Qed.

Lemma worse_readings_never_lower_risk_witness :
  let v := LogicCore.mkVitals 135 85 2 140 30 [] in
  let v' := LogicCore.mkVitals 145 85 2 140 30 [] in
  let w := LogicCoreV2.mkVitals "p-1" 135 85 2 140 [] in
  let w' := LogicCoreV2.mkVitals "p-1" 145 85 2 140 [] in
  (LogicCore.systolicBP v <= LogicCore.systolicBP v' /\
   LogicCore.diastolicBP v <= LogicCore.diastolicBP v' /\
   LogicCore.proteinuria v <= LogicCore.proteinuria v' /\
   LogicCore.fetalHeartRate v = LogicCore.fetalHeartRate v') /\
  riskScore (LogicCore.deterministicRules v)
    <= riskScore (LogicCore.deterministicRules v').
Proof.
  intros v v' w w'.
  assert (Hsame : sameReadings v w) by (repeat split).
  assert (Hsame' : sameReadings v' w') by (repeat split).
  assert (Hs : LogicCore.systolicBP v <= LogicCore.systolicBP v')
    by (simpl; lia).
  assert (Hd : LogicCore.diastolicBP v <= LogicCore.diastolicBP v')
    by (simpl; lia).
  assert (Hp : LogicCore.proteinuria v <= LogicCore.proteinuria v')
    by (simpl; lia).
  assert (Hf : LogicCore.fetalHeartRate v = LogicCore.fetalHeartRate v')
    by reflexivity.
  split; [repeat split; assumption |].
  exact (proj1 (worse_readings_never_lower_risk v v' w w' [] []
                  Hsame Hsame' Hs Hd Hp Hf)).
Defined.

(** Where the preeclampsia reason stands, the score is at least 60. *)
Lemma preeclampsia_reason_score v w :
  (In LogicCore.PREECLAMPSIA (reasons (LogicCore.deterministicRules v)) ->
   60 <= riskScore (LogicCore.deterministicRules v)) /\
  (In LogicCoreV2.PREECLAMPSIA (reasons (LogicCoreV2.totalTally w)) ->
   60 <= riskScore (LogicCoreV2.totalTally w)).
Proof.
  split.
  - unfold LogicCore.deterministicRules, LogicCore.checkFetalDistress,
      LogicCore.checkPreeclampsia, LogicCore.checkHypertension.
    thresholds.
    split_tests; simpl in *; try lia; intros Hin;
      repeat (destruct Hin as [Hin | Hin]; try discriminate Hin);
      contradiction.
  - unfold LogicCoreV2.totalTally, LogicCoreV2.checkFetalHeartRate,
      LogicCoreV2.checkPreeclampsia, LogicCoreV2.checkHypertension.
    thresholds.
    split_tests; simpl in *; try lia; intros Hin;
      repeat (destruct Hin as [Hin | Hin]; try discriminate Hin);
      contradiction.
Qed.

(** X13.  The preeclampsia rule escalates to CRITICAL: an assessment whose
    reasoning holds the preeclampsia reason has risk level CRITICAL,
    whatever the model does, in either revision. *)
Theorem preeclampsia_escalates_to_critical
  (model : LogicCore.PatientVitals -> Async Q)
  (v : LogicCore.PatientVitals) (w : LogicCoreV2.PatientVitals)
  (c c' : Console) (r r' : AssessmentResult) :
  outcome (LogicCore.assessPatientRiskWith model v) c = Resolved r ->
  In LogicCore.PREECLAMPSIA (reasoning r) ->
  outcome (LogicCoreV2.assessPatientRisk w) c' = Resolved r' ->
  In LogicCoreV2.PREECLAMPSIA (reasoning r') ->
  riskLevel r = CRITICAL /\ riskLevel r' = CRITICAL.
Proof.
  intros Hr Hin Hr' Hin'.
  destruct (preeclampsia_reason_score v w) as [Hpre Hpre'].
  split.
  - destruct (LogicCoreFacts.totalTally_cases model v c)
      as (t & c1 & Ht & Hcase).
    unfold outcome in Hr.
    rewrite (LogicCoreFacts.assessPatientRiskWith_total _ _ _ _ _ Ht) in Hr.
    simpl in Hr. injection Hr as <-.
    assert (Hin_t : In LogicCore.PREECLAMPSIA (reasons t)).
    { destruct (proj1 (reasoning_cases t)) as [E | E]; rewrite E in Hin;
        [exact Hin |].
      destruct Hin as [Hin | []]. discriminate Hin. }
    assert (Hscore : 50 <= riskScore t).
    { destruct Hcase as [-> | ->].
      - specialize (Hpre Hin_t). lia.
      - simpl in Hin_t. apply in_app_or in Hin_t.
        destruct Hin_t as [Hin_t | [Hin_t | []]]; [| discriminate Hin_t].
        specialize (Hpre Hin_t). simpl. lia. }
    rewrite LogicCoreFacts.generateFinalAssessment_level.
    destruct (Z.geb_spec (riskScore t) 50); [reflexivity | lia].
  - unfold outcome in Hr'. simpl in Hr'. injection Hr' as <-.
    assert (Hin_t : In LogicCoreV2.PREECLAMPSIA
                       (reasons (LogicCoreV2.totalTally w))).
    { destruct (proj2 (reasoning_cases (LogicCoreV2.totalTally w)))
        as [E | E]; rewrite E in Hin'; [exact Hin' |].
      destruct Hin' as [Hin' | []]. discriminate Hin'. }
    specialize (Hpre' Hin_t).
    rewrite LogicCoreV2Facts.generateResult_level.
    destruct (Z.geb_spec (riskScore (LogicCoreV2.totalTally w)) 50);
      [reflexivity | lia].
Qed.

Lemma preeclampsia_escalates_to_critical_witness :
  let v := LogicCore.mkVitals 150 95 2 140 30 [] in
  let w := LogicCoreV2.mkVitals "p-1" 150 95 2 140 [] in
  let r := mkAssessment CRITICAL "#FF0000"
             "EMERGENCY: INITIATE TRANSPORT TO GENERAL HOSPITAL NOW."
             ["Hypertension detected";
              "Potential Preeclampsia: High BP combined with Proteinuria"] in
  let r' := mkAssessment CRITICAL "#FF0000" "EMERGENCY: TRANSPORT NOW"
              ["Hypertension detected";
               "Potential Preeclampsia (BP + Protein)"] in
  (outcome (LogicCore.assessPatientRiskWith LogicCore.runOfflineModel v) [] =
     Resolved r /\
   In LogicCore.PREECLAMPSIA (reasoning r) /\
   outcome (LogicCoreV2.assessPatientRisk w) [] = Resolved r' /\
   In LogicCoreV2.PREECLAMPSIA (reasoning r')) /\
  riskLevel r = CRITICAL /\ riskLevel r' = CRITICAL.
Proof.
  intros v w r r'.
  assert (H1 : outcome (LogicCore.assessPatientRiskWith
                          LogicCore.runOfflineModel v) [] = Resolved r)
    by reflexivity.
  assert (H2 : In LogicCore.PREECLAMPSIA (reasoning r))
    by (simpl; auto).
  assert (H3 : outcome (LogicCoreV2.assessPatientRisk w) [] = Resolved r')
    by reflexivity.
  assert (H4 : In LogicCoreV2.PREECLAMPSIA (reasoning r'))
    by (simpl; auto).
  split; [repeat split; assumption |].
  exact (preeclampsia_escalates_to_critical LogicCore.runOfflineModel
           v w [] [] r r' H1 H2 H3 H4).
Defined.
